(* Shallow embedding of src/auto_print_pdfs.py (pdf_to_print):
   the PDF sniffer [is_pdf], the lp command builder [print_pdf],
   the polling loop [watch_folder], the option prompts
   [get_print_options], printer discovery [list_printers], the printer
   prompt [choose_printer] and the main block.  Paths and the lp
   command are ASCII strings; the text read from the terminal and from
   lpstat is a sequence of Unicode code points. *)

From Stdlib Require Import Ascii String Strings.Byte.
From stdpp Require Import base gmap strings list pretty.

Open Scope string_scope.
Open Scope list_scope.

(* ------------------------------------------------------------------ *)
(** * Python string helpers for paths (ASCII)                          *)
(* ------------------------------------------------------------------ *)

(** [str.lower] on one character. *)
Definition lower_char (c : ascii) : ascii :=
  let n := nat_of_ascii c in
  if (65 <=? n)%nat && (n <=? 90)%nat then ascii_of_nat (n + 32) else c.

Fixpoint str_lower (s : string) : string :=
  match s with
  | EmptyString => EmptyString
  | String c s' => String (lower_char c) (str_lower s')
  end.

(** [str.endswith]. *)
Definition str_endswith (s suf : string) : bool :=
  let n := String.length s in
  let k := String.length suf in
  (k <=? n)%nat && String.eqb (substring (n - k) k s) suf.


(** Python truthiness of a [str]. *)
Definition truthy (s : string) : bool := negb (String.eqb s "").

(** [os.path.join(a, b)] for two components. *)
Definition is_abs (b : string) : bool :=
  match b with
  | String "/" _ => true
  | _ => false
  end.

Definition path_join (a b : string) : string :=
  if is_abs b then b
  else if String.eqb a "" || str_endswith a "/" then a +:+ b
  else a +:+ "/" +:+ b.

(* ------------------------------------------------------------------ *)
(** * PDF sniffer: [is_pdf]                                            *)
(* ------------------------------------------------------------------ *)

(** [PDF_MAGIC = b"%PDF-"]. *)
Definition PDF_MAGIC : list Byte.byte :=
  [Byte.x25; Byte.x50; Byte.x44; Byte.x46; Byte.x2d].

#[global] Instance byte_eq_dec' : EqDecision Byte.byte := Byte.byte_eq_dec.

Definition bytes_eqb (a b : list Byte.byte) : bool :=
  bool_decide (a = b).

(** [is_pdf path].  [read p] is the content of [open(p, "rb")], or [None]
    when [open] or [read] raises.  The second component lists the paths
    the function opened. *)
Definition is_pdf (read : string -> option (list Byte.byte)) (path : string)
    : bool * list string :=
  if negb (str_endswith (str_lower path) ".pdf") then (false, [])
  else match read path with
       | Some data => (bytes_eqb (firstn 5 data) PDF_MAGIC, [path])
       | None => (false, [path])
       end.

(* ------------------------------------------------------------------ *)
(** * Print invoker: [print_pdf]                                       *)
(* ------------------------------------------------------------------ *)

(** The tuple [(pages, copies, duplex, fit, media)]. *)
Record options := {
  pages : string;
  copies : Z;
  duplex : option string;
  fit : bool;
  media : option string
}.

Definition opt_truthy (o : option string) : bool :=
  match o with Some s => truthy s | None => false end.

(** The [cmd] list built by [print_pdf]. *)
Definition print_cmd (path printer : string) (o : options) : list string :=
  ["lp"; "-d"; printer]
  ++ (if negb (Z.eqb (copies o) 0) && negb (Z.eqb (copies o) 1)
      then ["-n"; pretty (copies o)] else [])
  ++ (if truthy (pages o) then ["-P"; pages o] else [])
  ++ (match duplex o with
      | Some d => if truthy d then ["-o"; "sides=" +:+ d] else []
      | None => [] end)
  ++ (if fit o then ["-o"; "fit-to-page"] else [])
  ++ (match media o with
      | Some m => if truthy m then ["-o"; "media=" +:+ m] else []
      | None => [] end)
  ++ [path].

(** [print_pdf]: [lp cmd] is whether [subprocess.run(cmd, check=True)]
    returned normally; every exception is turned into [False]. *)
Definition print_pdf (lp : list string -> bool) (path printer : string)
    (o : options) : bool :=
  lp (print_cmd path printer o).

(* ------------------------------------------------------------------ *)
(** * The watched folder as seen during one cycle                     *)
(* ------------------------------------------------------------------ *)

(** One filesystem node.  [n_data = None] when [open]/[read] raises,
    [n_mtime = None] when [os.path.getmtime] raises (e.g. the file was
    removed after it was sniffed). *)
Record fnode := {
  n_isfile : bool;
  n_data : option (list Byte.byte);
  n_mtime : option Z
}.

Definition fsys := string -> option fnode.

(** [os.path.isfile]: never raises, [False] on any error. *)
Definition isfile (fs : fsys) (p : string) : bool :=
  match fs p with Some n => n_isfile n | None => false end.

Definition read_file (fs : fsys) (p : string) : option (list Byte.byte) :=
  match fs p with Some n => n_data n | None => None end.

(** [os.path.getmtime]: [None] models the raised [OSError]. *)
Definition getmtime (fs : fsys) (p : string) : option Z :=
  match fs p with Some n => n_mtime n | None => None end.

(** What the loop of one cycle gets from the outside world:
    the result of [os.listdir(folder)] ([None]: it raised), the
    filesystem, and the outcome of each [lp] invocation. *)
Record cycle_input := {
  ci_listing : option (list string);
  ci_fs : fsys;
  ci_lp : list string -> bool
}.

(** Observable effects of the loop. *)
Inductive event :=
| ESubmit (path : string) (cmd : list string) (ok : bool)
| EWarn
| ESleep (secs : Z).

(** [printed_files]: path |-> mtime recorded at the last successful print. *)
Abbreviation hist := (gmap string Z).

(** [path not in printed_files or printed_files[path] < mtime] *)
Definition should_print (h : hist) (p : string) (m : Z) : bool :=
  match h !! p with
  | None => true
  | Some v => Z.ltb v m
  end.

Inductive visit_out :=
| VRaise
| VNext (evs : list event) (h' : hist).

Section Watch.

Variable folder printer : string.
Variable opts : options.

(** The body of [for name in os.listdir(folder)]. *)
Definition visit (fs : fsys) (lp : list string -> bool) (h : hist)
    (name : string) : visit_out :=
  let path := path_join folder name in
  if negb (isfile fs path) then VNext [] h
  else if negb (fst (is_pdf (read_file fs) path)) then VNext [] h
  else match getmtime fs path with
       | None => VRaise
       | Some mtime =>
           if should_print h path mtime then
             let cmd := print_cmd path printer opts in
             let ok := lp cmd in
             VNext [ESubmit path cmd ok]
                   (if ok then <[path := mtime]> h else h)
           else VNext [] h
       end.

(** The [for] loop; the boolean says whether it was left by an
    exception, which abandons the remaining names. *)
Fixpoint scan (fs : fsys) (lp : list string -> bool) (names : list string)
    (h : hist) : hist * list event * bool :=
  match names with
  | [] => (h, [], false)
  | name :: rest =>
      match visit fs lp h name with
      | VRaise => (h, [], true)
      | VNext evs h1 =>
          let '(h2, evs2, r) := scan fs lp rest h1 in (h2, evs ++ evs2, r)
      end
  end.

(** One iteration of [while True: try ... except Exception ...]. *)
Definition cycle (c : cycle_input) (h : hist) : hist * list event :=
  match ci_listing c with
  | None => (h, [EWarn; ESleep 5])
  | Some names =>
      let '(h', evs, raised) := scan (ci_fs c) (ci_lp c) names h in
      if raised then (h', evs ++ [EWarn; ESleep 5])
      else (h', evs ++ [ESleep 5])
  end.

(** The first [length cs] cycles of the loop. *)
Fixpoint watch (cs : list cycle_input) (h : hist) : hist * list event :=
  match cs with
  | [] => (h, [])
  | c :: cs' =>
      let '(h1, e1) := cycle c h in
      let '(h2, e2) := watch cs' h1 in
      (h2, e1 ++ e2)
  end.

(** [watch_folder] starts from [printed_files = {}]. *)
Definition watch_folder (cs : list cycle_input) : hist * list event :=
  watch cs ∅.

End Watch.

(** Paths submitted, in order, in a list of events. *)
Fixpoint submitted (evs : list event) : list string :=
  match evs with
  | [] => []
  | ESubmit p _ _ :: evs' => p :: submitted evs'
  | _ :: evs' => submitted evs'
  end.

Fixpoint sleeps (evs : list event) : list Z :=
  match evs with
  | [] => []
  | ESleep s :: evs' => s :: sleeps evs'
  | _ :: evs' => sleeps evs'
  end.

(** The entry [name] makes the cycle raise: a regular file that passes
    the sniffer but whose [getmtime] fails. *)
Definition raises_at (folder : string) (fs : fsys) (name : string) : bool :=
  let p := path_join folder name in
  isfile fs p && fst (is_pdf (read_file fs) p)
  && match getmtime fs p with None => true | Some _ => false end.


(* ------------------------------------------------------------------ *)
(** * Python [str] as a sequence of code points                       *)
(* ------------------------------------------------------------------ *)

(** The prompts read [str] values with [input()], and [check_output(...,
    text=True)] decodes the lpstat output to a [str]: these are
    sequences of Unicode code points. *)
Abbreviation ustring := (list N).

Open Scope N_scope.

(** The code points of an ASCII literal. *)
Definition u (s : string) : ustring :=
  map (fun a => N.of_nat (nat_of_ascii a)) (list_ascii_of_string s).

(** [==] on [str]. *)
Definition ueqb (a b : ustring) : bool := bool_decide (a = b).

(** [str.isspace] of one code point (CPython's [Py_UNICODE_ISSPACE]):
    \t \n \v \f \r, \x1c-\x1f, space, \x85, \xa0, U+1680,
    U+2000-U+200A, U+2028, U+2029, U+202F, U+205F and U+3000.  These
    separate the words of [str.split()] and are removed by
    [str.strip()]. *)
Definition py_isspace (c : N) : bool :=
  ((9 <=? c) && (c <=? 13)) || ((28 <=? c) && (c <=? 32))
  || (c =? 133) || (c =? 160) || (c =? 5760)
  || ((8192 <=? c) && (c <=? 8202))
  || (c =? 8232) || (c =? 8233) || (c =? 8239) || (c =? 8287) || (c =? 12288).

(** The line boundaries of [str.splitlines()]: \n \r \v \f \x1c \x1d
    \x1e \x85 U+2028 U+2029 (and the pair \r\n). *)
Definition py_islinebreak (c : N) : bool :=
  ((10 <=? c) && (c <=? 13)) || ((28 <=? c) && (c <=? 30))
  || (c =? 133) || (c =? 8232) || (c =? 8233).

(** [str.lstrip()]. *)
Fixpoint ulstrip (s : ustring) : ustring :=
  match s with
  | [] => []
  | c :: s' => if py_isspace c then ulstrip s' else s
  end.

(** [str.strip()]: strip the left end, then the right end. *)
Definition ustrip (s : ustring) : ustring := rev (ulstrip (rev (ulstrip s))).

(** The word read so far, as a list of zero or one word. *)
Definition flush (cur : ustring) : list ustring :=
  match cur with [] => [] | _ => [cur] end.

(** [str.split()]: the maximal runs of non-whitespace characters;
    [cur] is the run read so far. *)
Fixpoint usplit_go (cur : ustring) (s : ustring) : list ustring :=
  match s with
  | [] => flush cur
  | c :: s' =>
      if py_isspace c then flush cur ++ usplit_go [] s'
      else usplit_go (cur ++ [c]) s'
  end.

Definition usplit (s : ustring) : list ustring := usplit_go [] s.

(** [str.splitlines()]; [cur] is the line read so far.  A \r followed
    by \n is one boundary; a last line without a boundary is kept when
    it is non-empty. *)
Fixpoint usplitlines_go (cur : ustring) (s : ustring) : list ustring :=
  match s with
  | [] => flush cur
  | c :: s' =>
      if c =? 13 then
        match s' with
        | d :: s'' =>
            if d =? 10 then cur :: usplitlines_go [] s''
            else cur :: usplitlines_go [] s'
        | [] => cur :: usplitlines_go [] s'
        end
      else if py_islinebreak c then cur :: usplitlines_go [] s'
      else usplitlines_go (cur ++ [c]) s'
  end.

Definition usplitlines (s : ustring) : list ustring := usplitlines_go [] s.

(** The Unicode character database as [str.isdigit], [int] and
    [str.lower] consult it.  Its tables are not written out: the
    properties used below are those of [db_ok]. *)
Record unicode_db := {
  (* [ch.isdigit()]: Numeric_Type Digit or Decimal *)
  ud_isdigit : N -> bool;
  (* [unicodedata.decimal(ch)], the value [int] gives a digit *)
  ud_decimal : N -> option N;
  (* [s.lower()] *)
  ud_lower : ustring -> ustring;
  (* [int(s)] refuses [s] for having more digits than
     [sys.get_int_max_str_digits()] allows *)
  ud_int_too_long : ustring -> bool
}.

Definition ascii_digit (c : N) : bool := (48 <=? c) && (c <=? 57).

Definition ascii_lower (c : N) : N := if (65 <=? c) && (c <=? 90) then c + 32 else c.

(** What Python's database says of ASCII, and the smallest limit
    [sys.set_int_max_str_digits] accepts (640 digits). *)
Record db_ok (U : unicode_db) : Prop := {
  ok_isdigit : forall c, c < 128 -> ud_isdigit U c = ascii_digit c;
  ok_decimal : forall c, c < 128 ->
    ud_decimal U c = if ascii_digit c then Some (c - 48) else None;
  ok_lower : forall s, Forall (fun c => c < 128) s -> ud_lower U s = map ascii_lower s;
  ok_int_limit : forall s, (length s <= 640)%nat -> ud_int_too_long U s = false
}.

(** The part of CPython's database the examples below rely on: ASCII
    digits; the superscripts U+00B2, U+00B3, U+00B9, for which [isdigit]
    holds but which have no decimal value; the fullwidth digits
    U+FF10-U+FF19, decimal 0-9; [str.lower] on ASCII letters; the default
    limit of 4300 digits. *)
Definition py_db : unicode_db := {|
  ud_isdigit := fun c =>
    ascii_digit c || (c =? 178) || (c =? 179) || (c =? 185)
    || ((65296 <=? c) && (c <=? 65305));
  ud_decimal := fun c =>
    if ascii_digit c then Some (c - 48)
    else if (65296 <=? c) && (c <=? 65305) then Some (c - 65296) else None;
  ud_lower := map ascii_lower;
  ud_int_too_long := fun s => (4300 <? length s)%nat
|}.

(** Exceptions that reach the top of the program from the prompts. *)
Inductive py_exn :=
| EOFError     (* [input()] at end of input *)
| ValueError.  (* [int(s)] refused [s] *)

(** Outcome of a prompt: its value and the input lines left, or an
    exception. *)
Inductive io (A : Type) :=
| IOk (a : A) (rest : list ustring)
| IRaise (e : py_exn).

Arguments IOk {A} a rest.
Arguments IRaise {A} e.

(** The values [get_print_options] returns. *)
Record py_options := {
  po_pages : ustring;
  po_copies : Z;
  po_duplex : option ustring;
  po_fit : bool;
  po_media : option ustring
}.

Inductive choose_out :=
| ChooseExit (code : Z)                            (* [sys.exit(code)] *)
| Chosen (printer : ustring) (rest : list ustring)
| ChooseRaise (e : py_exn).

Inductive main_out :=
| MainExit (code : Z)
| MainRaise (e : py_exn)
| MainWatch (printer : ustring) (o : py_options).

Section Prompts.

Variable U : unicode_db.

(** [s.isdigit()]: non-empty, every character a digit. *)
Definition py_isdigit (s : ustring) : bool :=
  match s with [] => false | _ => forallb (ud_isdigit U) s end.

Fixpoint int_digits (acc : Z) (s : ustring) : option Z :=
  match s with
  | [] => Some acc
  | c :: s' =>
      match ud_decimal U c with
      | Some d => int_digits (10 * acc + Z.of_N d) s'
      | None => None
      end
  end.

(** [int(s)] for a string [s] with [s.isdigit()] (no sign, underscore or
    space); [None] is the [ValueError] it raises. *)
Definition py_int (s : ustring) : option Z :=
  if ud_int_too_long U s then None else int_digits 0 s.

(** Each prompt reads one line of input per [input()] call. *)
Fixpoint ask_copies (inp : list ustring) : io Z :=
  match inp with
  | [] => IRaise EOFError
  | line :: rest =>
      let copies := ustrip line in
      match copies with
      | [] => IOk 1%Z rest
      | _ =>
          if py_isdigit copies then
            match py_int copies with
            | None => IRaise ValueError
            | Some v => if (0 <? v)%Z then IOk v rest else ask_copies rest
            end
          else ask_copies rest
      end
  end.

Definition duplex_modes : list ustring :=
  [u "one-sided"; u "two-sided-long-edge"; u "two-sided-short-edge"].

Fixpoint ask_duplex (inp : list ustring) : io (option ustring) :=
  match inp with
  | [] => IRaise EOFError
  | line :: rest =>
      let duplex_choice := ustrip line in
      match duplex_choice with
      | [] => IOk None rest
      | _ =>
          if py_isdigit duplex_choice then
            match py_int duplex_choice with
            | None => IRaise ValueError
            | Some v =>
                if (1 <=? v)%Z && (v <=? Z.of_nat (length duplex_modes))%Z
                then IOk (Some (nth (Z.to_nat (v - 1)) duplex_modes [])) rest
                else ask_duplex rest
            end
          else ask_duplex rest
      end
  end.

Definition get_print_options (inp : list ustring) : io py_options :=
  match inp with
  | [] => IRaise EOFError
  | l0 :: inp1 =>
      let pages := ustrip l0 in
      match ask_copies inp1 with
      | IRaise e => IRaise e
      | IOk copies inp2 =>
          match ask_duplex inp2 with
          | IRaise e => IRaise e
          | IOk duplex inp3 =>
              match inp3 with
              | [] => IRaise EOFError
              | l3 :: inp4 =>
                  let fit := ueqb (ud_lower U (ustrip l3)) (u "y") in
                  match inp4 with
                  | [] => IRaise EOFError
                  | l4 :: inp5 =>
                      let m := ustrip l4 in
                      let media := match m with [] => None | _ => Some m end in
                      IOk {| po_pages := pages; po_copies := copies; po_duplex := duplex;
                             po_fit := fit; po_media := media |} inp5
                  end
              end
          end
      end
  end.

(** The [while True] loop of [choose_printer]. *)
Fixpoint choose_loop (printers : list ustring) (inp : list ustring) : choose_out :=
  match inp with
  | [] => ChooseRaise EOFError
  | line :: rest =>
      let choice := ustrip line in
      if py_isdigit choice then
        match py_int choice with
        | None => ChooseRaise ValueError
        | Some v =>
            if (1 <=? v)%Z && (v <=? Z.of_nat (length printers))%Z
            then Chosen (nth (Z.to_nat (v - 1)) printers []) rest
            else choose_loop printers rest
        end
      else choose_loop printers rest
  end.

Definition choose_printer (printers : list ustring) (default_printer : option ustring)
    (inp : list ustring) : choose_out :=
  match printers with
  | [] => ChooseExit 1
  | _ => choose_loop printers inp
  end.

End Prompts.

(* ------------------------------------------------------------------ *)
(** * Printer discovery: [list_printers]                               *)
(* ------------------------------------------------------------------ *)

(** The [for line in out.splitlines()] loop over [lpstat -p]. *)
Definition parse_printers (out : ustring) : list ustring :=
  flat_map (fun line =>
              let parts := usplit line in
              if (2 <=? length parts)%nat && ueqb (nth 0 parts []) (u "printer")
              then [nth 1 parts []] else [])
           (usplitlines out).

(** [":" in d] and [d.split(":", 1)[1]] (58 is the colon). *)
Definition has_colon (s : ustring) : bool := existsb (fun c => c =? 58) s.

Fixpoint after_colon (s : ustring) : ustring :=
  match s with
  | [] => []
  | c :: s' => if c =? 58 then s' else after_colon s'
  end.

(** The [lpstat -d] part. *)
Definition parse_default (out : ustring) : option ustring :=
  let d := ustrip out in
  if has_colon d then Some (ustrip (after_colon d)) else None.

(** [list_printers]: [out_p] and [out_d] are the outputs of [lpstat -p]
    and [lpstat -d], [None] when [check_output] raises. *)
Definition list_printers (out_p out_d : option ustring) : list ustring * option ustring :=
  (match out_p with Some o => parse_printers o | None => [] end,
   match out_d with Some d => parse_default d | None => None end).

(** The [if __name__ == "__main__"] block up to the call of
    [watch_folder(printer, ...)]. *)
Definition main_setup (U : unicode_db) (out_p out_d : option ustring) (inp : list ustring)
    : main_out :=
  let '(printers, default_printer) := list_printers out_p out_d in
  match choose_printer U printers default_printer inp with
  | ChooseExit code => MainExit code
  | ChooseRaise e => MainRaise e
  | Chosen printer rest =>
      match get_print_options U rest with
      | IOk o _ => MainWatch printer o
      | IRaise e => MainRaise e
      end
  end.

(** Output of [lpstat -p] in its documented layout: one line
    ["printer NAME TAIL"] per printer, each ended by a newline. *)
Fixpoint lpstat_p_output (entries : list (ustring * ustring)) : ustring :=
  match entries with
  | [] => []
  | (n, tail) :: rest => u "printer " ++ n ++ u " " ++ tail ++ [10] ++ lpstat_p_output rest
  end.

Close Scope N_scope.

(* ------------------------------------------------------------------ *)
(** * Facts about one visit and one scan                              *)
(* ------------------------------------------------------------------ *)

Definition sniffed (fs : fsys) (p : string) : bool :=
  isfile fs p && fst (is_pdf (read_file fs) p).

Section Scan_facts.

Variable folder printer : string.
Variable opts : options.
Variable fs : fsys.
Variable lp : list string -> bool.

Local Abbreviation visit' := (visit folder printer opts fs lp).
Local Abbreviation scan' := (scan folder printer opts fs lp).
Local Abbreviation cmd_of p := (print_cmd p printer opts).

Lemma visit_cases (h h' : hist) (x : string) (evs : list event) :
  visit' h x = VNext evs h' ->
  (evs = [] /\ h' = h) \/
  (exists m, sniffed fs (path_join folder x) = true
     /\ getmtime fs (path_join folder x) = Some m
     /\ should_print h (path_join folder x) m = true
     /\ evs = [ESubmit (path_join folder x) (cmd_of (path_join folder x))
                 (lp (cmd_of (path_join folder x)))]
     /\ h' = if lp (cmd_of (path_join folder x))
             then <[path_join folder x := m]> h else h).
Proof.
  unfold visit, sniffed.
  destruct (isfile fs (path_join folder x)) eqn:Hf; simpl;
    [| intros E; inversion E; subst; auto].
  destruct (fst (is_pdf (read_file fs) (path_join folder x))) eqn:Hp; simpl;
    [| intros E; inversion E; subst; auto].
  destruct (getmtime fs (path_join folder x)) as [m|] eqn:Hm; [| discriminate].
  destruct (should_print h (path_join folder x) m) eqn:Hs;
    intros E; inversion E; subst; [right; exists m; auto | auto].
Qed.

Lemma visit_raise (h : hist) (x : string) :
  visit' h x = VRaise <-> raises_at folder fs x = true.
Proof.
  unfold visit, raises_at.
  destruct (isfile fs (path_join folder x)); simpl; [| split; discriminate].
  destruct (fst (is_pdf (read_file fs) (path_join folder x))); simpl;
    [| split; discriminate].
  destruct (getmtime fs (path_join folder x)); [| tauto].
  destruct (should_print _ _ _); split; discriminate.
Qed.

Lemma visit_hit (h : hist) (x : string) (m : Z) :
  sniffed fs (path_join folder x) = true ->
  getmtime fs (path_join folder x) = Some m ->
  should_print h (path_join folder x) m = true ->
  visit' h x =
    VNext [ESubmit (path_join folder x) (cmd_of (path_join folder x))
             (lp (cmd_of (path_join folder x)))]
          (if lp (cmd_of (path_join folder x))
           then <[path_join folder x := m]> h else h).
Proof.
  unfold visit, sniffed. intros Hs Hm Hp.
  apply andb_prop in Hs as [-> ->]. simpl. rewrite Hm, Hp. reflexivity.
Qed.

(** A visit keeps the entry of every other path. *)
Lemma visit_other (h h' : hist) (x p : string) (evs : list event) :
  visit' h x = VNext evs h' -> path_join folder x <> p ->
  h' !! p = h !! p /\ ~ In p (submitted evs).
Proof.
  intros E Hne. apply visit_cases in E as [[-> ->] | (m & _ & _ & _ & -> & ->)].
  - simpl. auto.
  - simpl. split; [| intros [E|[]]; congruence].
    destruct (lp _); [rewrite lookup_insert_ne; auto | reflexivity].
Qed.

Lemma submitted_app (e1 e2 : list event) :
  submitted (e1 ++ e2) = submitted e1 ++ submitted e2.
Proof. induction e1 as [|[] e1 IH]; simpl; rewrite ?IH; reflexivity. Qed.

(** A recorded mtime not older than the file's mtime is never touched
    and the file is not submitted. *)
Lemma scan_stable (names : list string) (h : hist) (p : string) (v : Z) :
  h !! p = Some v ->
  (forall m, getmtime fs p = Some m -> (m <= v)%Z) ->
  (scan' names h).1.1 !! p = Some v /\ ~ In p (submitted (scan' names h).1.2).
Proof.
  intros Hv Hle. revert h Hv.
  induction names as [|x names IH]; intros h Hv; simpl; [auto|].
  destruct (visit' h x) as [|evs h1] eqn:E; simpl; [auto|].
  destruct (scan' names h1) as [[h2 evs2] r] eqn:Es.
  destruct (decide (path_join folder x = p)) as [<-|Hne].
  - apply visit_cases in E as [[-> ->] | (m & _ & Hm & Hs & _ & _)].
    + specialize (IH h Hv). rewrite Es in IH. exact IH.
    + exfalso. unfold should_print in Hs. rewrite Hv in Hs.
      apply Hle in Hm. apply Z.ltb_lt in Hs. lia.
  - destruct (visit_other h h1 x p evs E Hne) as [Hk Hn].
    rewrite <- Hk in Hv. specialize (IH h1 Hv). rewrite Es in IH.
    simpl in *. rewrite submitted_app, in_app_iff. tauto.
Qed.

(** Submitted during a scan implies the decision was true at its start. *)
Lemma scan_submitted_decision (names : list string) (h : hist) (p : string) (m : Z) :
  getmtime fs p = Some m ->
  In p (submitted (scan' names h).1.2) -> should_print h p m = true.
Proof.
  intros Hm Hin. destruct (should_print h p m) eqn:Hs; [reflexivity|].
  unfold should_print in Hs. destruct (h !! p) as [v|] eqn:Hv; [|discriminate].
  apply Z.ltb_ge in Hs.
  destruct (scan_stable names h p v Hv) as [_ Hn]; [|contradiction].
  intros m' Hm'. congruence.
Qed.


(** A successful submission of [p] leaves [p] recorded at its mtime. *)
Lemma scan_success_records (names : list string) (h : hist) (p : string)
    (cmd : list string) (m : Z) :
  getmtime fs p = Some m ->
  In (ESubmit p cmd true) (scan' names h).1.2 ->
  (scan' names h).1.1 !! p = Some m.
Proof.
  intros Hm. revert h.
  induction names as [|x names IH]; intros h; simpl; [tauto|].
  destruct (visit' h x) as [|evs h1] eqn:E; simpl; [tauto|].
  destruct (scan' names h1) as [[h2 evs2] r] eqn:Es. simpl.
  specialize (IH h1). rewrite Es in IH. simpl in IH.
  rewrite in_app_iff. intros [Hin|Hin]; [|auto].
  apply visit_cases in E as [[-> ->] | (m' & _ & Hm' & _ & -> & ->)];
    [destruct Hin|].
  destruct Hin as [Hin|[]]. injection Hin as Hx _ Hok. rewrite Hx in *.
  rewrite Hm in Hm'. injection Hm' as <-. rewrite Hok in Es.
  destruct (scan_stable names (<[p:=m]> h) p m) as [Hk _].
  - apply lookup_insert_eq.
  - intros m' Hm'. rewrite Hm in Hm'. injection Hm' as <-. lia.
  - rewrite Es in Hk. exact Hk.
Qed.



End Scan_facts.

Lemma submit_in_submitted (evs : list event) (p : string) (cmd : list string) (ok : bool) :
  In (ESubmit p cmd ok) evs -> In p (submitted evs).
Proof.
  induction evs as [|e evs IH]; simpl; [tauto|].
  intros [E|H]; [subst e; simpl; left; reflexivity|].
  destruct e; simpl; auto.
Qed.

(** A cycle whose listing succeeded is its scan followed by events that
    submit nothing. *)
Lemma cycle_scan (folder printer : string) (opts : options) (c : cycle_input)
    (h : hist) (names : list string) :
  ci_listing c = Some names ->
  let s := scan folder printer opts (ci_fs c) (ci_lp c) names h in
  (cycle folder printer opts c h).1 = s.1.1 /\
  exists tl, (cycle folder printer opts c h).2 = s.1.2 ++ tl /\ submitted tl = [].
Proof.
  intros Hl. unfold cycle. rewrite Hl.
  destruct (scan _ _ _ _ _ _ _) as [[h' evs] []]; simpl;
    (split; [reflexivity | eexists; split; reflexivity]).
Qed.

Lemma cycle_submitted (folder printer : string) (opts : options) (c : cycle_input)
    (h : hist) (names : list string) :
  ci_listing c = Some names ->
  submitted (cycle folder printer opts c h).2
  = submitted (scan folder printer opts (ci_fs c) (ci_lp c) names h).1.2.
Proof.
  intros Hl. destruct (cycle_scan folder printer opts c h names Hl) as [_ [tl [-> Htl]]].
  rewrite submitted_app, Htl, app_nil_r. reflexivity.
Qed.

Lemma cycle_no_listing_submits (folder printer : string) (opts : options)
    (c : cycle_input) (h : hist) :
  ci_listing c = None -> cycle folder printer opts c h = (h, [EWarn; ESleep 5]).
Proof. intros Hl. unfold cycle. rewrite Hl. reflexivity. Qed.

(* ------------------------------------------------------------------ *)
(** * Concrete folders used by the examples                           *)
(* ------------------------------------------------------------------ *)

Fixpoint fs_of (entries : list (string * fnode)) : fsys :=
  fun p =>
    match entries with
    | [] => None
    | (q, n) :: rest => if String.eqb p q then Some n else fs_of rest p
    end.

Definition pdf_file (m : option Z) : fnode :=
  {| n_isfile := true; n_data := Some (PDF_MAGIC ++ [Byte.x31; Byte.x2e; Byte.x37]);
     n_mtime := m |}.

Definition ex_opts : options :=
  {| pages := ""; copies := 1; duplex := None; fit := false; media := None |}.

(** [a.pdf] is removed between the sniff and [getmtime]. *)
Definition ex_fs_abort : fsys :=
  fs_of [("/w/a.pdf", pdf_file None); ("/w/b.pdf", pdf_file (Some 1%Z))].

Definition ex_fs_one (m : Z) : fsys := fs_of [("/w/a.pdf", pdf_file (Some m))].

Definition ex_cycle (fs : fsys) (ok : bool) (names : list string) : cycle_input :=
  {| ci_listing := Some names; ci_fs := fs; ci_lp := fun _ => ok |}.

(* ------------------------------------------------------------------ *)
(** * C1: the submit decision                                          *)
(* ------------------------------------------------------------------ *)




(* ------------------------------------------------------------------ *)
(** * C2: outcome of a submission, retry after failure                 *)
(* ------------------------------------------------------------------ *)





(* ------------------------------------------------------------------ *)
(** * C3: idempotence of a successful print                            *)
(* ------------------------------------------------------------------ *)

(** C3: a file whose submission succeeded in a cycle, and whose mtime is
    the same in the next cycle, is not submitted in the next cycle. *)
Theorem success_not_resubmitted (folder printer : string) (opts : options)
    (c1 c2 : cycle_input) (h0 : hist) (p : string) (cmd : list string) (m : Z) :
  In (ESubmit p cmd true) (cycle folder printer opts c1 h0).2 ->
  getmtime (ci_fs c1) p = Some m ->
  getmtime (ci_fs c2) p = Some m ->
  ~ In p (submitted (cycle folder printer opts c2 (cycle folder printer opts c1 h0).1).2).
Proof.
  intros Hin Hm1 Hm2.
  destruct (ci_listing c1) as [names1|] eqn:Hl1;
    [| rewrite (cycle_no_listing_submits _ _ _ _ _ Hl1) in Hin;
       destruct Hin as [E|[E|[]]]; discriminate].
  destruct (cycle_scan folder printer opts c1 h0 names1 Hl1) as [Hh [tl [He Htl]]].
  rewrite He, in_app_iff in Hin. destruct Hin as [Hin|Hin];
    [| apply submit_in_submitted in Hin; rewrite Htl in Hin; destruct Hin].
  apply (scan_success_records _ _ _ _ _ _ _ _ _ m Hm1) in Hin.
  rewrite <- Hh in Hin.
  destruct (ci_listing c2) as [names2|] eqn:Hl2;
    [| rewrite (cycle_no_listing_submits _ _ _ _ _ Hl2); simpl; tauto].
  rewrite (cycle_submitted _ _ _ _ _ _ Hl2).
  apply (scan_stable _ _ _ _ _ _ _ _ m Hin).
  intros m' Hm'. rewrite Hm2 in Hm'. injection Hm' as <-. lia.
Qed.

Lemma success_not_resubmitted_witness :
  let c := ex_cycle (ex_fs_one 1) true ["a.pdf"] in
  ~ In "/w/a.pdf" (submitted (cycle "/w" "P" ex_opts c (cycle "/w" "P" ex_opts c ∅).1).2).
Proof.
  intros c. apply (success_not_resubmitted "/w" "P" ex_opts c c ∅ "/w/a.pdf"
                     (print_cmd "/w/a.pdf" "P" ex_opts) 1);
    [vm_compute; left; reflexivity | reflexivity | reflexivity].
Defined.

(* ------------------------------------------------------------------ *)
(** * C4: change detection                                            *)
(* ------------------------------------------------------------------ *)




(* ------------------------------------------------------------------ *)
(** * C5, C6: the PDF sniffer                                          *)
(* ------------------------------------------------------------------ *)

Lemma firstn_magic (data : list Byte.byte) :
  firstn 5 data = PDF_MAGIC <-> exists rest, data = PDF_MAGIC ++ rest.
Proof.
  split.
  - intros H. exists (skipn 5 data). rewrite <- H. symmetry. apply firstn_skipn.
  - intros [rest ->]. reflexivity.
Qed.

(** C5: for a path ending in [.pdf] (any case), [is_pdf] is true iff the
    content read starts with [%PDF-]; it is false for an empty file and
    when the file cannot be read.  [is_pdf] is a total function: the
    model has no exceptional outcome. *)
Theorem is_pdf_magic (read : string -> option (list Byte.byte)) (p : string) :
  str_endswith (str_lower p) ".pdf" = true ->
  (forall data, read p = Some data ->
     fst (is_pdf read p) = true <-> exists rest, data = PDF_MAGIC ++ rest)
  /\ (read p = Some [] -> fst (is_pdf read p) = false)
  /\ (read p = None -> fst (is_pdf read p) = false).
Proof.
  intros Hsuf. unfold is_pdf. rewrite Hsuf. simpl.
  split; [| split].
  - intros data ->. simpl. unfold bytes_eqb. rewrite bool_decide_eq_true.
    apply firstn_magic.
  - intros ->. reflexivity.
  - intros ->. reflexivity.
Qed.

Lemma is_pdf_magic_witness :
  fst (is_pdf (fun _ => Some (PDF_MAGIC ++ [Byte.x31])) "scan.PDF") = true.
Proof.
  apply (proj1 (is_pdf_magic (fun _ => Some (PDF_MAGIC ++ [Byte.x31])) "scan.PDF" eq_refl)
           (PDF_MAGIC ++ [Byte.x31]) eq_refl).
  exists [Byte.x31]. reflexivity.
Defined.

(** C6: for a path not ending in [.pdf] (any case), [is_pdf] is false
    whatever the reader returns, and it opens no file. *)
Theorem is_pdf_non_pdf_unread (read : string -> option (list Byte.byte)) (p : string) :
  str_endswith (str_lower p) ".pdf" = false ->
  is_pdf read p = (false, []).
Proof. intros Hsuf. unfold is_pdf. rewrite Hsuf. reflexivity. Qed.

Lemma is_pdf_non_pdf_unread_witness :
  is_pdf (fun _ => Some PDF_MAGIC) "b.txt" = (false, []).
Proof. apply is_pdf_non_pdf_unread. reflexivity. Defined.

(* ------------------------------------------------------------------ *)
(** * C7: the lp command                                              *)
(* ------------------------------------------------------------------ *)

(** The option sets [get_print_options] can return (a duplex value is
    one of its [duplex_modes]). *)
Definition wf_options (o : options) : Prop :=
  (1 <= copies o)%Z /\ media o <> Some "" /\
  (forall d, duplex o = Some d -> In (u d) duplex_modes).

Lemma truthy_true (s : string) : s <> "" -> truthy s = true.
Proof. intros H. unfold truthy. destruct (String.eqb_spec s ""); easy. Qed.

(** C7: the command is [lp -d printer], then [-n copies] exactly when
    copies <> 1, [-P pages] exactly when pages is non-empty,
    [-o sides=d] exactly when duplex is [Some d], [-o fit-to-page]
    exactly when fit, [-o media=s] exactly when media is [Some s], and
    the file path as its last element. *)
Theorem print_cmd_shape (path printer : string) (o : options) :
  wf_options o ->
  exists cp pg dx ft md,
    print_cmd path printer o = ["lp"; "-d"; printer] ++ cp ++ pg ++ dx ++ ft ++ md ++ [path]
    /\ ((copies o = 1%Z /\ cp = []) \/ (copies o <> 1%Z /\ cp = ["-n"; pretty (copies o)]))
    /\ ((pages o = "" /\ pg = []) \/ (pages o <> "" /\ pg = ["-P"; pages o]))
    /\ ((duplex o = None /\ dx = [])
        \/ exists d, duplex o = Some d /\ dx = ["-o"; "sides=" +:+ d])
    /\ ((fit o = false /\ ft = []) \/ (fit o = true /\ ft = ["-o"; "fit-to-page"]))
    /\ ((media o = None /\ md = [])
        \/ exists s, media o = Some s /\ md = ["-o"; "media=" +:+ s]).
Proof.
  destruct o as [pg cp dx ft md]. intros (Hc & Hm & Hd). simpl in *.
  unfold print_cmd. simpl.
  eexists _, _, _, _, _. split; [reflexivity|].
  split; [| split; [| split; [| split]]].
  - destruct (Z.eqb_spec cp 1) as [E|E].
    + left. subst. split; reflexivity.
    + right. split; [exact E|]. replace (cp =? 0)%Z with false by (symmetry; apply Z.eqb_neq; lia).
      reflexivity.
  - destruct (String.eqb_spec pg "") as [E|E].
    + left. subst. split; reflexivity.
    + right. split; [exact E|]. rewrite (truthy_true pg E). reflexivity.
  - destruct dx as [d|]; [right | left; split; reflexivity].
    exists d. split; [reflexivity|].
    assert (Hne : d <> "") by (intros ->; specialize (Hd "" eq_refl); simpl in Hd;
                               destruct Hd as [E|[E|[E|[]]]]; discriminate).
    rewrite (truthy_true d Hne). reflexivity.
  - destruct ft; [right | left]; split; reflexivity.
  - destruct md as [s|]; [right | left; split; reflexivity].
    exists s. split; [reflexivity|].
    assert (Hne : s <> "") by (intros ->; apply Hm; reflexivity).
    rewrite (truthy_true s Hne). reflexivity.
Qed.

Definition ex_opts_full : options :=
  {| pages := "1-2"; copies := 3; duplex := Some "two-sided-long-edge";
     fit := true; media := Some "A4" |}.

Lemma print_cmd_shape_witness :
  exists cp pg dx ft md,
    print_cmd "/w/a.pdf" "Office" ex_opts_full
      = ["lp"; "-d"; "Office"] ++ cp ++ pg ++ dx ++ ft ++ md ++ ["/w/a.pdf"]
    /\ ((copies ex_opts_full = 1%Z /\ cp = [])
        \/ (copies ex_opts_full <> 1%Z /\ cp = ["-n"; pretty (copies ex_opts_full)]))
    /\ ((pages ex_opts_full = "" /\ pg = [])
        \/ (pages ex_opts_full <> "" /\ pg = ["-P"; pages ex_opts_full]))
    /\ ((duplex ex_opts_full = None /\ dx = [])
        \/ exists d, duplex ex_opts_full = Some d /\ dx = ["-o"; "sides=" +:+ d])
    /\ ((fit ex_opts_full = false /\ ft = [])
        \/ (fit ex_opts_full = true /\ ft = ["-o"; "fit-to-page"]))
    /\ ((media ex_opts_full = None /\ md = [])
        \/ exists s, media ex_opts_full = Some s /\ md = ["-o"; "media=" +:+ s]).
Proof.
  apply print_cmd_shape. split; [simpl; lia | split].
  - discriminate.
  - intros d E. injection E as <-. simpl. tauto.
Defined.

Example print_cmd_full_options :
  print_cmd "/w/a.pdf" "Office" ex_opts_full
  = ["lp"; "-d"; "Office"; "-n"; "3"; "-P"; "1-2"; "-o"; "sides=two-sided-long-edge";
     "-o"; "fit-to-page"; "-o"; "media=A4"; "/w/a.pdf"].
Proof. reflexivity. Qed.

(* ------------------------------------------------------------------ *)
(** * C8: exceptions during a scan                                    *)
(* ------------------------------------------------------------------ *)

Lemma sleeps_app (e1 e2 : list event) : sleeps (e1 ++ e2) = sleeps e1 ++ sleeps e2.
Proof. induction e1 as [|[] e1 IH]; simpl; rewrite ?IH; reflexivity. Qed.

Lemma scan_no_sleep (folder printer : string) (opts : options) (fs : fsys)
    (lp : list string -> bool) (names : list string) (h : hist) :
  sleeps (scan folder printer opts fs lp names h).1.2 = [].
Proof.
  revert h. induction names as [|x names IH]; intros h; simpl; [reflexivity|].
  destruct (visit folder printer opts fs lp h x) as [|evs h1] eqn:E; [reflexivity|].
  specialize (IH h1). destruct (scan _ _ _ _ _ names h1) as [[h2 evs2] r]. simpl in *.
  rewrite sleeps_app, IH, app_nil_r.
  apply visit_cases in E as [[-> _] | (m & _ & _ & _ & -> & _)]; reflexivity.
Qed.

Lemma cycle_sleeps_once (folder printer : string) (opts : options) (c : cycle_input)
    (h : hist) :
  sleeps (cycle folder printer opts c h).2 = [5%Z].
Proof.
  unfold cycle. destruct (ci_listing c) as [names|]; [|reflexivity].
  pose proof (scan_no_sleep folder printer opts (ci_fs c) (ci_lp c) names h) as H.
  destruct (scan _ _ _ _ _ names h) as [[h' evs] []]; simpl in *;
    rewrite sleeps_app, H; reflexivity.
Qed.

Lemma scan_app_reach (folder printer : string) (opts : options) (fs : fsys)
    (lp : list string -> bool) (pre rest : list string) (h : hist) :
  Forall (fun y => raises_at folder fs y = false) pre ->
  let s1 := scan folder printer opts fs lp pre h in
  let s2 := scan folder printer opts fs lp rest s1.1.1 in
  s1.2 = false /\ scan folder printer opts fs lp (pre ++ rest) h = (s2.1.1, s1.1.2 ++ s2.1.2, s2.2).
Proof.
  intros Hpre. revert h. induction Hpre as [|y pre Hy Hpre IH]; intros h; simpl.
  - destruct (scan _ _ _ _ _ rest h) as [[h2 e2] r]. simpl. split; reflexivity.
  - destruct (visit folder printer opts fs lp h y) as [|evs h1] eqn:E;
      [apply visit_raise in E; congruence|].
    destruct (IH h1) as [Hr Heq]. rewrite Heq.
    destruct (scan _ _ _ _ _ pre h1) as [[h2 e2] r2] eqn:E2. simpl in *.
    destruct (scan _ _ _ _ _ rest h2) as [[h3 e3] r3]. simpl.
    split; [exact Hr | rewrite app_assoc; reflexivity].
Qed.

(** C8 (as stated): the cycle in which an exception is raised is not a
    no-op: [a.pdf] was printed and recorded before [getmtime] failed on
    [b.pdf]. *)
Lemma C8_aborted_cycle_not_noop :
  let fs := fs_of [("/w/a.pdf", pdf_file (Some 1%Z)); ("/w/b.pdf", pdf_file None)] in
  cycle "/w" "P" ex_opts (ex_cycle fs true ["a.pdf"; "b.pdf"]) ∅
  = ({[ "/w/a.pdf" := 1%Z ]},
     [ESubmit "/w/a.pdf" (print_cmd "/w/a.pdf" "P" ex_opts) true; EWarn; ESleep 5]).
Proof. vm_compute. reflexivity. Qed.

(** C8 (amended): when [os.listdir] raises, the cycle only warns and
    sleeps 5; when [getmtime] raises on the entry [name], the cycle keeps
    what the entries before it did, skips the entries after it, warns and
    sleeps 5; and every cycle, whatever happens in it, ends with one
    sleep of 5 and the loop goes on to the next cycle. *)
Theorem scan_error_continues (folder printer : string) (opts : options)
    (c : cycle_input) (h : hist) :
  (ci_listing c = None -> cycle folder printer opts c h = (h, [EWarn; ESleep 5]))
  /\ (forall pre name post,
        ci_listing c = Some (pre ++ name :: post) ->
        Forall (fun y => raises_at folder (ci_fs c) y = false) pre ->
        raises_at folder (ci_fs c) name = true ->
        let s := scan folder printer opts (ci_fs c) (ci_lp c) pre h in
        cycle folder printer opts c h = (s.1.1, s.1.2 ++ [EWarn; ESleep 5]))
  /\ (forall cs, sleeps (watch folder printer opts (c :: cs) h).2
                 = repeat 5%Z (S (length cs))).
Proof.
  split; [apply cycle_no_listing_submits|]. split.
  - intros pre name post Hl Hpre Hr. unfold cycle. rewrite Hl.
    destruct (scan_app_reach folder printer opts (ci_fs c) (ci_lp c) pre (name :: post) h Hpre)
      as [_ ->].
    simpl. apply (visit_raise folder printer opts (ci_fs c) (ci_lp c)
                   (scan folder printer opts (ci_fs c) (ci_lp c) pre h).1.1) in Hr.
    rewrite Hr. simpl. rewrite app_nil_r. reflexivity.
  - intros cs. revert c h. induction cs as [|c' cs IH]; intros c h; simpl.
    + destruct (cycle folder printer opts c h) as [h1 e1] eqn:E. simpl.
      rewrite app_nil_r. pose proof (cycle_sleeps_once folder printer opts c h) as S.
      rewrite E in S. exact S.
    + destruct (cycle folder printer opts c h) as [h1 e1] eqn:E.
      pose proof (cycle_sleeps_once folder printer opts c h) as S. rewrite E in S.
      specialize (IH c' h1). simpl in IH.
      destruct (cycle folder printer opts c' h1) as [h2 e2].
      destruct (watch folder printer opts cs h2) as [h3 e3]. simpl in *.
      rewrite sleeps_app, S, IH. reflexivity.
Qed.

(* ------------------------------------------------------------------ *)
(** * C9: option prompts                                              *)
(* ------------------------------------------------------------------ *)

Section Prompt_facts.

Variable U : unicode_db.

(** One line of a prompt, by the shape of its stripped text. *)
Lemma ask_copies_line (l : ustring) (rest : list ustring) :
  ask_copies U (l :: rest)
  = match ustrip l with
    | [] => IOk 1%Z rest
    | _ =>
        if py_isdigit U (ustrip l) then
          match py_int U (ustrip l) with
          | None => IRaise ValueError
          | Some v => if (0 <? v)%Z then IOk v rest else ask_copies U rest
          end
        else ask_copies U rest
    end.
Proof. cbn [ask_copies]. destruct (ustrip l); reflexivity. Qed.

Lemma ask_duplex_line (l : ustring) (rest : list ustring) :
  ask_duplex U (l :: rest)
  = match ustrip l with
    | [] => IOk None rest
    | _ =>
        if py_isdigit U (ustrip l) then
          match py_int U (ustrip l) with
          | None => IRaise ValueError
          | Some v =>
              if (1 <=? v)%Z && (v <=? 3)%Z
              then IOk (Some (nth (Z.to_nat (v - 1)) duplex_modes [])) rest
              else ask_duplex U rest
          end
        else ask_duplex U rest
    end.
Proof. cbn [ask_duplex]. destruct (ustrip l); reflexivity. Qed.

Lemma choose_loop_line (ps : list ustring) (l : ustring) (rest : list ustring) :
  choose_loop U ps (l :: rest)
  = if py_isdigit U (ustrip l) then
      match py_int U (ustrip l) with
      | None => ChooseRaise ValueError
      | Some v =>
          if (1 <=? v)%Z && (v <=? Z.of_nat (length ps))%Z
          then Chosen (nth (Z.to_nat (v - 1)) ps []) rest
          else choose_loop U ps rest
      end
    else choose_loop U ps rest.
Proof. reflexivity. Qed.

Lemma py_isdigit_nonempty (s : ustring) : py_isdigit U s = true -> s <> [].
Proof. destruct s; [discriminate | intros _ E; discriminate E]. Qed.

Lemma ask_copies_positive (inp rest : list ustring) (cp : Z) :
  ask_copies U inp = IOk cp rest -> (1 <= cp)%Z /\ exists pre, inp = pre ++ rest.
Proof.
  revert cp. induction inp as [|l inp IH]; intros cp; [discriminate|].
  rewrite ask_copies_line.
  assert (Hnext : ask_copies U inp = IOk cp rest ->
                  (1 <= cp)%Z /\ exists pre, l :: inp = pre ++ rest).
  { intros E. destruct (IH cp E) as [Hc [pre ->]]. split; [exact Hc|].
    exists (l :: pre). reflexivity. }
  destruct (ustrip l) as [|c s].
  - intros E. injection E as <- <-. split; [lia | exists [l]; reflexivity].
  - destruct (py_isdigit U (c :: s)); [|exact Hnext].
    destruct (py_int U (c :: s)) as [v|]; [|discriminate].
    destruct (0 <? v)%Z eqn:Hv; [|exact Hnext].
    intros E. injection E as <- <-. apply Z.ltb_lt in Hv.
    split; [lia | exists [l]; reflexivity].
Qed.

Lemma ask_duplex_valid (inp rest : list ustring) (dx : option ustring) :
  ask_duplex U inp = IOk dx rest ->
  (forall d, dx = Some d -> In d duplex_modes) /\ exists pre, inp = pre ++ rest.
Proof.
  revert dx. induction inp as [|l inp IH]; intros dx; [discriminate|].
  rewrite ask_duplex_line.
  assert (Hnext : ask_duplex U inp = IOk dx rest ->
                  (forall d, dx = Some d -> In d duplex_modes)
                  /\ exists pre, l :: inp = pre ++ rest).
  { intros E. destruct (IH dx E) as [Hd [pre ->]]. split; [exact Hd|].
    exists (l :: pre). reflexivity. }
  destruct (ustrip l) as [|c s].
  - intros E. injection E as <- <-. split; [discriminate | exists [l]; reflexivity].
  - destruct (py_isdigit U (c :: s)); [|exact Hnext].
    destruct (py_int U (c :: s)) as [v|]; [|discriminate].
    destruct ((1 <=? v)%Z && (v <=? 3)%Z) eqn:Hv; [|exact Hnext].
    intros E. injection E as <- <-. apply andb_prop in Hv as [H1 H2].
    apply Z.leb_le in H1, H2. split; [|exists [l]; reflexivity].
    intros d E. injection E as <-.
    change (In (nth (Z.to_nat (v - 1)) duplex_modes []) duplex_modes).
    apply nth_In. simpl. lia.
Qed.

(** A prompt raises [ValueError] only at a line whose stripped text
    passes [isdigit] but which [int] refuses. *)
Definition int_refused (l : ustring) : Prop :=
  py_isdigit U (ustrip l) = true /\ py_int U (ustrip l) = None.

Lemma ask_copies_value_error (inp : list ustring) :
  ask_copies U inp = IRaise ValueError ->
  exists pre l post, inp = pre ++ l :: post /\ int_refused l.
Proof.
  induction inp as [|l inp IH]; [discriminate|]. rewrite ask_copies_line.
  assert (Hnext : ask_copies U inp = IRaise ValueError ->
                  exists pre l' post, l :: inp = pre ++ l' :: post /\ int_refused l').
  { intros E. destruct (IH E) as (pre & l' & post & -> & H). exists (l :: pre), l', post. auto. }
  unfold int_refused. destruct (ustrip l) as [|c s] eqn:Es; [discriminate|].
  destruct (py_isdigit U (c :: s)) eqn:Hd; [|exact Hnext].
  destruct (py_int U (c :: s)) as [v|] eqn:Hi.
  - destruct (0 <? v)%Z; [discriminate | exact Hnext].
  - intros _. exists [], l, inp. rewrite Es. auto.
Qed.

Lemma ask_duplex_value_error (inp : list ustring) :
  ask_duplex U inp = IRaise ValueError ->
  exists pre l post, inp = pre ++ l :: post /\ int_refused l.
Proof.
  induction inp as [|l inp IH]; [discriminate|]. rewrite ask_duplex_line.
  assert (Hnext : ask_duplex U inp = IRaise ValueError ->
                  exists pre l' post, l :: inp = pre ++ l' :: post /\ int_refused l').
  { intros E. destruct (IH E) as (pre & l' & post & -> & H). exists (l :: pre), l', post. auto. }
  unfold int_refused. destruct (ustrip l) as [|c s] eqn:Es; [discriminate|].
  destruct (py_isdigit U (c :: s)) eqn:Hd; [|exact Hnext].
  destruct (py_int U (c :: s)) as [v|] eqn:Hi.
  - destruct ((1 <=? v)%Z && (v <=? 3)%Z); [discriminate | exact Hnext].
  - intros _. exists [], l, inp. rewrite Es. auto.
Qed.

Lemma get_print_options_value_error (inp : list ustring) :
  get_print_options U inp = IRaise ValueError ->
  exists pre l post, inp = pre ++ l :: post /\ int_refused l.
Proof.
  unfold get_print_options. destruct inp as [|l0 inp1]; [discriminate|].
  destruct (ask_copies U inp1) as [cp inp2|e] eqn:Ec.
  - destruct (ask_duplex U inp2) as [dx inp3|e] eqn:Ed.
    + destruct inp3 as [|l3 [|l4 inp5]]; discriminate.
    + intros E. injection E as ->.
      destruct (ask_copies_positive inp1 inp2 cp Ec) as [_ [pre ->]].
      destruct (ask_duplex_value_error inp2 Ed) as (pre' & l & post & -> & H).
      exists (l0 :: pre ++ pre'), l, post. simpl. rewrite <- app_assoc. auto.
  - intros E. injection E as ->.
    destruct (ask_copies_value_error inp1 Ec) as (pre & l & post & -> & H).
    exists (l0 :: pre), l, post. auto.
Qed.

(** What a successful run of [get_print_options] read. *)
Lemma get_print_options_ok (inp rest : list ustring) (o : py_options) :
  get_print_options U inp = IOk o rest ->
  (1 <= po_copies o)%Z
  /\ (forall d, po_duplex o = Some d -> In d duplex_modes)
  /\ exists l0 pre l3 l4, inp = l0 :: pre ++ l3 :: l4 :: rest
     /\ po_pages o = ustrip l0
     /\ po_fit o = ueqb (ud_lower U (ustrip l3)) (u "y")
     /\ po_media o = match ustrip l4 with [] => None | m => Some m end.
Proof.
  unfold get_print_options. destruct inp as [|l0 inp1]; [discriminate|].
  destruct (ask_copies U inp1) as [cp inp2|e] eqn:Ec; [|discriminate].
  destruct (ask_duplex U inp2) as [dx inp3|e] eqn:Ed; [|discriminate].
  destruct inp3 as [|l3 [|l4 inp5]]; [discriminate | discriminate|].
  intros E. injection E as <- <-. simpl.
  destruct (ask_copies_positive inp1 inp2 cp Ec) as [Hc [pre1 ->]].
  destruct (ask_duplex_valid inp2 _ dx Ed) as [Hd [pre2 ->]].
  split; [exact Hc | split; [exact Hd|]].
  exists l0, (pre1 ++ pre2), l3, l4. rewrite <- app_assoc.
  split; [reflexivity | split; [reflexivity | split; [reflexivity|]]].
  destruct (ustrip l4); reflexivity.
Qed.

End Prompt_facts.



(* ------------------------------------------------------------------ *)
(** * C10: the history only grows                                     *)
(* ------------------------------------------------------------------ *)

Lemma visit_monotone (folder printer : string) (opts : options) (fs : fsys)
    (lp : list string -> bool) (h h' : hist) (x : string) (evs : list event)
    (p : string) (v : Z) :
  visit folder printer opts fs lp h x = VNext evs h' ->
  h !! p = Some v -> exists v', h' !! p = Some v' /\ (v <= v')%Z.
Proof.
  intros E Hv.
  apply visit_cases in E as [[_ ->] | (m & _ & _ & Hs & _ & ->)];
    [exists v; split; [exact Hv | lia]|].
  destruct (lp _); [|exists v; split; [exact Hv | lia]].
  destruct (decide (path_join folder x = p)) as [<-|Hne].
  - exists m. rewrite lookup_insert_eq. split; [reflexivity|].
    unfold should_print in Hs. rewrite Hv in Hs. apply Z.ltb_lt in Hs. lia.
  - exists v. rewrite lookup_insert_ne by exact Hne. split; [exact Hv | lia].
Qed.

Lemma scan_monotone (folder printer : string) (opts : options) (fs : fsys)
    (lp : list string -> bool) (names : list string) (h : hist) (p : string) (v : Z) :
  h !! p = Some v ->
  exists v', (scan folder printer opts fs lp names h).1.1 !! p = Some v' /\ (v <= v')%Z.
Proof.
  revert h v. induction names as [|x names IH]; intros h v Hv; simpl;
    [exists v; split; [exact Hv | lia]|].
  destruct (visit folder printer opts fs lp h x) as [|evs h1] eqn:E;
    [exists v; split; [exact Hv | lia]|].
  destruct (visit_monotone _ _ _ _ _ _ _ _ _ _ _ E Hv) as [v1 [Hv1 Hle1]].
  destruct (IH h1 v1 Hv1) as [v2 [Hv2 Hle2]].
  destruct (scan _ _ _ _ _ names h1) as [[h2 e2] r]. simpl in *.
  exists v2. split; [exact Hv2 | lia].
Qed.

Lemma cycle_monotone (folder printer : string) (opts : options) (c : cycle_input)
    (h : hist) (p : string) (v : Z) :
  h !! p = Some v ->
  exists v', (cycle folder printer opts c h).1 !! p = Some v' /\ (v <= v')%Z.
Proof.
  intros Hv. destruct (ci_listing c) as [names|] eqn:Hl.
  - rewrite (proj1 (cycle_scan folder printer opts c h names Hl)).
    apply scan_monotone. exact Hv.
  - rewrite (cycle_no_listing_submits _ _ _ _ _ Hl). exists v. split; [exact Hv | lia].
Qed.

(** C10: each visit either leaves the history unchanged or sets one path
    that was absent or held a strictly smaller timestamp; over any number
    of cycles no entry is removed or lowered. *)
Theorem history_monotone :
  (forall folder printer opts fs lp (h h' : hist) x evs,
     visit folder printer opts fs lp h x = VNext evs h' ->
     h' = h \/ exists p m, h' = <[p := m]> h
                           /\ (h !! p = None \/ exists v, h !! p = Some v /\ (v < m)%Z))
  /\ (forall folder printer opts cs (h : hist) p v,
        h !! p = Some v ->
        exists v', (watch folder printer opts cs h).1 !! p = Some v' /\ (v <= v')%Z).
Proof.
  split.
  - intros folder printer opts fs lp h h' x evs E.
    apply visit_cases in E as [[_ ->] | (m & _ & _ & Hs & _ & ->)]; [left; reflexivity|].
    destruct (lp _); [right | left; reflexivity].
    exists (path_join folder x), m. split; [reflexivity|].
    unfold should_print in Hs. destruct (h !! path_join folder x) as [v|];
      [right; exists v; split; [reflexivity | apply Z.ltb_lt; exact Hs] | left; reflexivity].
  - intros folder printer opts cs. induction cs as [|c cs IH]; intros h p v Hv; simpl;
      [exists v; split; [exact Hv | lia]|].
    destruct (cycle_monotone folder printer opts c h p v Hv) as [v1 [Hv1 Hle1]].
    destruct (cycle folder printer opts c h) as [h1 e1]. simpl in Hv1.
    destruct (IH h1 p v1 Hv1) as [v2 [Hv2 Hle2]].
    destruct (watch folder printer opts cs h1) as [h2 e2]. simpl in *.
    exists v2. split; [exact Hv2 | lia].
Qed.

(* ------------------------------------------------------------------ *)
(** * The polling loop: what it submits and records                    *)
(* ------------------------------------------------------------------ *)

(** Every submission of a scan is the visit of a listed name whose file
    passed the sniffer and had an mtime, with the command of [print_pdf]
    and its outcome. *)
Lemma scan_submit_origin (folder printer : string) (opts : options) (fs : fsys)
    (lp : list string -> bool) (names : list string) (h : hist)
    (p : string) (cmd : list string) (ok : bool) :
  In (ESubmit p cmd ok) (scan folder printer opts fs lp names h).1.2 ->
  exists name, In name names /\ p = path_join folder name /\ sniffed fs p = true
    /\ (exists m, getmtime fs p = Some m)
    /\ cmd = print_cmd p printer opts /\ ok = lp cmd.
Proof.
  revert h. induction names as [|x names IH]; intros h; simpl; [tauto|].
  destruct (visit folder printer opts fs lp h x) as [|evs h1] eqn:E; simpl; [tauto|].
  specialize (IH h1). destruct (scan _ _ _ _ _ names h1) as [[h2 evs2] r]. simpl in *.
  rewrite in_app_iff. intros [Hin|Hin].
  - apply visit_cases in E as [[-> _] | (m & Hs & Hm & _ & -> & _)]; [destruct Hin|].
    destruct Hin as [Hin|[]]. injection Hin as <- <- <-.
    exists x. repeat split; auto. exists m. exact Hm.
  - destruct (IH Hin) as (name & Hn & Hrest). exists name. auto.
Qed.

(** The submissions of a scan follow the listing, one path per name at most. *)
Lemma scan_submitted_sublist (folder printer : string) (opts : options) (fs : fsys)
    (lp : list string -> bool) (names : list string) (h : hist) :
  submitted (scan folder printer opts fs lp names h).1.2 `sublist_of` map (path_join folder) names.
Proof.
  revert h. induction names as [|x names IH]; intros h; simpl; [constructor|].
  destruct (visit folder printer opts fs lp h x) as [|evs h1] eqn:E; simpl;
    [apply sublist_nil_l|].
  specialize (IH h1). destruct (scan _ _ _ _ _ names h1) as [[h2 evs2] r]. simpl in *.
  rewrite submitted_app.
  apply visit_cases in E as [[-> _] | (m & _ & _ & _ & -> & _)]; simpl.
  - apply sublist_cons, IH.
  - apply sublist_skip, IH.
Qed.

Lemma path_join_inj (a b1 b2 : string) :
  is_abs b1 = false -> is_abs b2 = false -> path_join a b1 = path_join a b2 -> b1 = b2.
Proof.
  unfold path_join. intros -> ->. destruct (String.eqb a "" || str_endswith a "/").
  - apply (String.app_inj a).
  - intros E. apply (String.app_inj a) in E. injection E as E. exact E.
Qed.

(** An entry of the history after a scan was there before, or it is the
    mtime of a file whose submission in that scan succeeded. *)
Lemma scan_entry_origin (folder printer : string) (opts : options) (fs : fsys)
    (lp : list string -> bool) (names : list string) (h : hist) (p : string) (v : Z) :
  (scan folder printer opts fs lp names h).1.1 !! p = Some v ->
  h !! p = Some v \/
  (getmtime fs p = Some v
   /\ exists cmd, In (ESubmit p cmd true) (scan folder printer opts fs lp names h).1.2).
Proof.
  revert h. induction names as [|x names IH]; intros h; simpl; [auto|].
  destruct (visit folder printer opts fs lp h x) as [|evs h1] eqn:E; simpl; [auto|].
  specialize (IH h1). destruct (scan _ _ _ _ _ names h1) as [[h2 evs2] r]. simpl in *.
  intros Hv. destruct (IH Hv) as [H1|[Hm [cmd Hin]]];
    [|right; split; [exact Hm | exists cmd; apply in_app_iff; right; exact Hin]].
  apply visit_cases in E as [[-> ->] | (m & _ & Hm & _ & -> & Eh)]; [auto|].
  subst h1. destruct (lp (print_cmd (path_join folder x) printer opts)) eqn:Hok; [|auto].
  destruct (decide (path_join folder x = p)) as [<-|Hne].
  - rewrite lookup_insert_eq in H1. injection H1 as <-. right. split; [exact Hm|].
    exists (print_cmd (path_join folder x) printer opts). apply in_app_iff. left.
    simpl. left. reflexivity.
  - rewrite lookup_insert_ne in H1 by exact Hne. auto.
Qed.

Lemma cycle_submit_in_scan (folder printer : string) (opts : options) (c : cycle_input)
    (h : hist) (p : string) (cmd : list string) (ok : bool) :
  In (ESubmit p cmd ok) (cycle folder printer opts c h).2 ->
  exists names, ci_listing c = Some names
    /\ In (ESubmit p cmd ok) (scan folder printer opts (ci_fs c) (ci_lp c) names h).1.2.
Proof.
  destruct (ci_listing c) as [names|] eqn:Hl.
  - destruct (cycle_scan folder printer opts c h names Hl) as [_ [tl [-> Htl]]].
    rewrite in_app_iff. intros [Hin|Hin]; [exists names; auto|].
    apply submit_in_submitted in Hin. rewrite Htl in Hin. destruct Hin.
  - rewrite (cycle_no_listing_submits folder printer opts c h Hl). simpl.
    intros [E|[E|[]]]; discriminate.
Qed.

(** X8: every submission made in a cycle is the path [folder/name] of a
    name returned by [os.listdir], a regular file that passed [is_pdf]
    and had an mtime [m] for which the decision on the history at the
    start of the cycle was true; the command is [print_cmd] of that
    path and the outcome is what [lp] returned for it. *)
Theorem cycle_submit_sound (folder printer : string) (opts : options) (c : cycle_input)
    (h : hist) (p : string) (cmd : list string) (ok : bool) :
  In (ESubmit p cmd ok) (cycle folder printer opts c h).2 ->
  (exists names name, ci_listing c = Some names /\ In name names /\ p = path_join folder name)
  /\ sniffed (ci_fs c) p = true
  /\ (exists m, getmtime (ci_fs c) p = Some m /\ should_print h p m = true)
  /\ cmd = print_cmd p printer opts /\ ok = ci_lp c cmd.
Proof.
  intros Hin. destruct (cycle_submit_in_scan folder printer opts c h p cmd ok Hin)
    as [names [Hl Hs]].
  destruct (scan_submit_origin _ _ _ _ _ _ _ _ _ _ Hs)
    as (name & Hn & Hp & Hsn & [m Hm] & Hc & Hok).
  split; [exists names, name; auto|]. split; [exact Hsn|]. split; [|auto].
  exists m. split; [exact Hm|].
  apply (scan_submitted_decision folder printer opts (ci_fs c) (ci_lp c) names h p m Hm).
  apply submit_in_submitted in Hs. exact Hs.
Qed.

Lemma cycle_submit_sound_witness :
  In (ESubmit "/w/a.pdf" (print_cmd "/w/a.pdf" "P" ex_opts) true)
     (cycle "/w" "P" ex_opts (ex_cycle (ex_fs_one 3) true ["a.pdf"]) ∅).2
  /\ (exists names name, ci_listing (ex_cycle (ex_fs_one 3) true ["a.pdf"]) = Some names
        /\ In name names /\ "/w/a.pdf" = path_join "/w" name)
  /\ sniffed (ci_fs (ex_cycle (ex_fs_one 3) true ["a.pdf"])) "/w/a.pdf" = true
  /\ (exists m, getmtime (ci_fs (ex_cycle (ex_fs_one 3) true ["a.pdf"])) "/w/a.pdf" = Some m
        /\ should_print ∅ "/w/a.pdf" m = true)
  /\ print_cmd "/w/a.pdf" "P" ex_opts = print_cmd "/w/a.pdf" "P" ex_opts
  /\ true = ci_lp (ex_cycle (ex_fs_one 3) true ["a.pdf"]) (print_cmd "/w/a.pdf" "P" ex_opts).
Proof.
  assert (Hin : In (ESubmit "/w/a.pdf" (print_cmd "/w/a.pdf" "P" ex_opts) true)
     (cycle "/w" "P" ex_opts (ex_cycle (ex_fs_one 3) true ["a.pdf"]) ∅).2)
    by (vm_compute; left; reflexivity).
  split; [exact Hin|].
  exact (cycle_submit_sound "/w" "P" ex_opts (ex_cycle (ex_fs_one 3) true ["a.pdf"]) ∅
           "/w/a.pdf" (print_cmd "/w/a.pdf" "P" ex_opts) true Hin).
Defined.

(** X9: when [os.listdir] returns distinct relative names, a cycle
    submits each path at most once, whatever the history. *)
Theorem cycle_submits_once (folder printer : string) (opts : options) (c : cycle_input)
    (h : hist) (names : list string) :
  ci_listing c = Some names -> NoDup names -> Forall (fun y => is_abs y = false) names ->
  NoDup (submitted (cycle folder printer opts c h).2).
Proof.
  intros Hl Hnd Hrel. rewrite (cycle_submitted folder printer opts c h names Hl).
  apply (sublist_NoDup _ (map (path_join folder) names));
    [|apply scan_submitted_sublist].
  apply NoDup_ListNoDup, NoDup_map_NoDup_ForallPairs; [|apply NoDup_ListNoDup, Hnd].
  intros a b Ha Hb. rewrite List.Forall_forall in Hrel.
  apply path_join_inj; apply Hrel; assumption.
Qed.

Lemma cycle_submits_once_witness :
  NoDup (submitted (cycle "/w" "P" ex_opts
                      (ex_cycle (ex_fs_one 3) false ["a.pdf"; "b.txt"]) ∅).2).
Proof.
  apply (cycle_submits_once "/w" "P" ex_opts (ex_cycle (ex_fs_one 3) false ["a.pdf"; "b.txt"])
           ∅ ["a.pdf"; "b.txt"]); [reflexivity | | repeat constructor].
  apply NoDup_ListNoDup.
  constructor; [simpl; intros [E|[]]; discriminate | constructor; [intros [] | constructor]].
Defined.

Lemma cycle_entry_origin (folder printer : string) (opts : options) (c : cycle_input)
    (h : hist) (p : string) (v : Z) :
  (cycle folder printer opts c h).1 !! p = Some v ->
  h !! p = Some v \/
  (getmtime (ci_fs c) p = Some v
   /\ exists cmd, In (ESubmit p cmd true) (cycle folder printer opts c h).2).
Proof.
  destruct (ci_listing c) as [names|] eqn:Hl;
    [|rewrite (cycle_no_listing_submits folder printer opts c h Hl); auto].
  destruct (cycle_scan folder printer opts c h names Hl) as [-> [tl [-> _]]].
  intros Hv. destruct (scan_entry_origin _ _ _ _ _ _ _ _ _ Hv) as [H|[Hm [cmd Hin]]]; [auto|].
  right. split; [exact Hm|]. exists cmd. apply in_app_iff. left. exact Hin.
Qed.

Lemma watch_cons_fst (folder printer : string) (opts : options) (c : cycle_input)
    (cs : list cycle_input) (h : hist) :
  (watch folder printer opts (c :: cs) h).1
  = (watch folder printer opts cs (cycle folder printer opts c h).1).1.
Proof.
  simpl. destruct (cycle folder printer opts c h) as [h1 e1]. simpl.
  destruct (watch folder printer opts cs h1). reflexivity.
Qed.

Lemma watch_entry_origin (folder printer : string) (opts : options) (cs : list cycle_input)
    (h : hist) (p : string) (v : Z) :
  (watch folder printer opts cs h).1 !! p = Some v ->
  h !! p = Some v \/
  (exists pre c post cmd, cs = pre ++ c :: post
     /\ getmtime (ci_fs c) p = Some v
     /\ In (ESubmit p cmd true)
          (cycle folder printer opts c (watch folder printer opts pre h).1).2).
Proof.
  revert h. induction cs as [|c cs IH]; intros h; [simpl; auto|].
  rewrite watch_cons_fst. intros Hv.
  destruct (IH _ Hv) as [H1|(pre & c' & post & cmd & -> & Hm & He)].
  - destruct (cycle_entry_origin folder printer opts c h p v H1) as [H0|[Hm [cmd He]]];
      [auto|].
    right. exists [], c, cs, cmd. auto.
  - right. exists (c :: pre), c', post, cmd. rewrite watch_cons_fst. auto.
Qed.

(** X10: [printed_files] only ever holds the mtime a file had in a cycle
    where its [lp] submission succeeded: an entry [p |-> v] after any
    number of cycles comes from one of those cycles, [c], in which
    [getmtime p = v] and which, run from the history the cycles before
    it left, submitted [p] with a successful outcome. *)
Theorem history_only_successful (folder printer : string) (opts : options)
    (cs : list cycle_input) (p : string) (v : Z) :
  (watch_folder folder printer opts cs).1 !! p = Some v ->
  exists pre c post cmd, cs = pre ++ c :: post
    /\ getmtime (ci_fs c) p = Some v
    /\ In (ESubmit p cmd true)
         (cycle folder printer opts c (watch_folder folder printer opts pre).1).2.
Proof.
  unfold watch_folder. intros Hv.
  destruct (watch_entry_origin folder printer opts cs ∅ p v Hv) as [H|H]; [|exact H].
  rewrite lookup_empty in H. discriminate.
Qed.

Lemma history_only_successful_witness :
  (watch_folder "/w" "P" ex_opts [ex_cycle (ex_fs_one 3) false ["a.pdf"];
                                  ex_cycle (ex_fs_one 3) true ["a.pdf"]]).1 !! "/w/a.pdf"
  = Some 3%Z
  /\ exists pre c post cmd,
       [ex_cycle (ex_fs_one 3) false ["a.pdf"]; ex_cycle (ex_fs_one 3) true ["a.pdf"]]
       = pre ++ c :: post
       /\ getmtime (ci_fs c) "/w/a.pdf" = Some 3%Z
       /\ In (ESubmit "/w/a.pdf" cmd true)
             (cycle "/w" "P" ex_opts c (watch_folder "/w" "P" ex_opts pre).1).2.
Proof.
  assert (Hv : (watch_folder "/w" "P" ex_opts [ex_cycle (ex_fs_one 3) false ["a.pdf"];
                                  ex_cycle (ex_fs_one 3) true ["a.pdf"]]).1 !! "/w/a.pdf"
               = Some 3%Z) by (vm_compute; reflexivity).
  split; [exact Hv|].
  exact (history_only_successful "/w" "P" ex_opts _ "/w/a.pdf" 3 Hv).
Defined.

(** The names a cycle visits: the listing up to the first entry that
    makes it raise. *)
Fixpoint upto_raise (folder : string) (fs : fsys) (names : list string) : list string :=
  match names with
  | [] => []
  | y :: ys => if raises_at folder fs y then [] else y :: upto_raise folder fs ys
  end.

Lemma scan_fresh_submissions (folder printer : string) (opts : options) (fs : fsys)
    (lp : list string -> bool) (names : list string) (h : hist) :
  NoDup names -> Forall (fun y => is_abs y = false) names ->
  (forall y, In y names -> h !! path_join folder y = None) ->
  submitted (scan folder printer opts fs lp names h).1.2
  = map (path_join folder)
      (List.filter (fun y => sniffed fs (path_join folder y)) (upto_raise folder fs names)).
Proof.
  intros Hnd. revert h. induction Hnd as [|x names Hx Hnd IH]; intros h Hrel Hfresh;
    simpl; [reflexivity|].
  inversion Hrel as [|? ? Hax Hrel']; subst.
  destruct (raises_at folder fs x) eqn:Hr.
  - apply (visit_raise folder printer opts fs lp h x) in Hr. rewrite Hr. reflexivity.
  - destruct (sniffed fs (path_join folder x)) eqn:Hs.
    + assert (Hm : exists m, getmtime fs (path_join folder x) = Some m).
      { unfold raises_at in Hr. unfold sniffed in Hs. rewrite Hs in Hr. simpl in Hr.
        destruct (getmtime fs (path_join folder x)) as [m|]; [eauto | discriminate]. }
      destruct Hm as [m Hm].
      assert (Hd : should_print h (path_join folder x) m = true).
      { unfold should_print. rewrite (Hfresh x (or_introl eq_refl)). reflexivity. }
      rewrite (visit_hit folder printer opts fs lp h x m Hs Hm Hd).
      set (h1 := if lp _ then _ else h).
      assert (Hf1 : forall y, In y names -> h1 !! path_join folder y = None).
      { intros y Hy. unfold h1.
        assert (Hne : path_join folder x <> path_join folder y).
        { intros E. apply path_join_inj in E; [| exact Hax |].
          - subst y. apply Hx. apply list_elem_of_In. exact Hy.
          - rewrite List.Forall_forall in Hrel'. apply Hrel', Hy. }
        destruct (lp _); [rewrite lookup_insert_ne by exact Hne|]; apply Hfresh; right; exact Hy. }
      specialize (IH h1 Hrel' Hf1).
      destruct (scan _ _ _ _ _ names h1) as [[h2 evs2] r]. simpl in *. rewrite IH, Hs. reflexivity.
    + assert (Hv : visit folder printer opts fs lp h x = VNext [] h).
      { destruct (visit folder printer opts fs lp h x) as [|evs h1] eqn:E.
        - apply visit_raise in E. congruence.
        - apply visit_cases in E as [[-> ->] | (m & Hs' & _)]; [reflexivity | congruence]. }
      rewrite Hv. specialize (IH h Hrel' (fun y Hy => Hfresh y (or_intror Hy))).
      destruct (scan _ _ _ _ _ names h) as [[h2 evs2] r]. simpl in *. rewrite Hs. exact IH.
Qed.

(** X11: when [os.listdir] returns distinct relative names, the first
    cycle of [watch_folder] submits, in listing order, exactly the paths
    of the names that pass [isfile] and [is_pdf], among the names listed
    before the first one whose [getmtime] fails. *)
Theorem first_cycle_submissions (folder printer : string) (opts : options)
    (c : cycle_input) (names : list string) :
  ci_listing c = Some names -> NoDup names -> Forall (fun y => is_abs y = false) names ->
  submitted (watch_folder folder printer opts [c]).2
  = map (path_join folder)
      (List.filter (fun y => sniffed (ci_fs c) (path_join folder y))
                   (upto_raise folder (ci_fs c) names)).
Proof.
  intros Hl Hnd Hrel. unfold watch_folder. cbn [watch].
  pose proof (cycle_submitted folder printer opts c ∅ names Hl) as Hs.
  destruct (cycle folder printer opts c ∅) as [h1 e1]. simpl in *.
  rewrite app_nil_r, Hs. apply scan_fresh_submissions; [exact Hnd | exact Hrel|].
  intros y _. apply lookup_empty.
Qed.

Lemma first_cycle_submissions_witness :
  submitted (watch_folder "/w" "P" ex_opts
               [ex_cycle ex_fs_abort true ["b.pdf"; "c.txt"; "a.pdf"; "d.pdf"]]).2
  = map (path_join "/w")
      (List.filter (fun y => sniffed ex_fs_abort (path_join "/w" y))
                   (upto_raise "/w" ex_fs_abort ["b.pdf"; "c.txt"; "a.pdf"; "d.pdf"])).
Proof.
  apply (first_cycle_submissions "/w" "P" ex_opts
           (ex_cycle ex_fs_abort true ["b.pdf"; "c.txt"; "a.pdf"; "d.pdf"])
           ["b.pdf"; "c.txt"; "a.pdf"; "d.pdf"]); [reflexivity | | repeat constructor].
  apply NoDup_ListNoDup. repeat constructor; simpl; intuition discriminate.
Defined.

(** X12: each cycle of the loop sleeps exactly once, for 5 seconds,
    whether the listing fails, a file raises or the scan completes. *)
Theorem watch_sleeps (folder printer : string) (opts : options) (cs : list cycle_input) :
  sleeps (watch_folder folder printer opts cs).2 = repeat 5%Z (length cs).
Proof.
  unfold watch_folder. generalize (∅ : hist) as h.
  induction cs as [|c cs IH]; intros h; simpl; [reflexivity|].
  pose proof (cycle_sleeps_once folder printer opts c h) as H1.
  destruct (cycle folder printer opts c h) as [h1 e1]. specialize (IH h1).
  destruct (watch folder printer opts cs h1) as [h2 e2]. simpl in *.
  rewrite sleeps_app, H1, IH. reflexivity.
Qed.

Lemma watch_submit_cycle (folder printer : string) (opts : options) (cs : list cycle_input)
    (h : hist) (p : string) (cmd : list string) (ok : bool) :
  In (ESubmit p cmd ok) (watch folder printer opts cs h).2 ->
  exists c h', In c cs /\ In (ESubmit p cmd ok) (cycle folder printer opts c h').2.
Proof.
  revert h. induction cs as [|c cs IH]; intros h; simpl; [tauto|].
  destruct (cycle folder printer opts c h) as [h1 e1] eqn:Ec. specialize (IH h1).
  destruct (watch folder printer opts cs h1) as [h2 e2]. simpl in *.
  rewrite in_app_iff. intros [Hin|Hin].
  - exists c, h. rewrite Ec. simpl. auto.
  - destruct (IH Hin) as (c' & h' & Hc & He). exists c', h'. auto.
Qed.

(** X17: over any number of cycles of [watch_folder], every submission
    is, in some cycle, of the path [folder/name] of a listed name whose
    file passed [isfile] and [is_pdf], with the command of [print_pdf]
    for that path and the outcome [lp] gave in that cycle. *)
Theorem watch_submit_sound (folder printer : string) (opts : options)
    (cs : list cycle_input) (p : string) (cmd : list string) (ok : bool) :
  In (ESubmit p cmd ok) (watch_folder folder printer opts cs).2 ->
  exists c names name, In c cs /\ ci_listing c = Some names /\ In name names
    /\ p = path_join folder name /\ sniffed (ci_fs c) p = true
    /\ cmd = print_cmd p printer opts /\ ok = ci_lp c cmd.
Proof.
  intros Hin. destruct (watch_submit_cycle folder printer opts cs ∅ p cmd ok Hin)
    as (c & h' & Hc & He).
  destruct (cycle_submit_in_scan folder printer opts c h' p cmd ok He) as [names [Hl Hs]].
  destruct (scan_submit_origin _ _ _ _ _ _ _ _ _ _ Hs)
    as (name & Hn & Hp & Hsn & _ & Hcmd & Hok).
  exists c, names, name. auto 10.
Qed.

Lemma watch_submit_sound_witness :
  In (ESubmit "/w/a.pdf" (print_cmd "/w/a.pdf" "P" ex_opts) false)
     (watch_folder "/w" "P" ex_opts [ex_cycle (ex_fs_one 3) false ["a.pdf"]]).2
  /\ exists c names name, In c [ex_cycle (ex_fs_one 3) false ["a.pdf"]]
       /\ ci_listing c = Some names /\ In name names
       /\ "/w/a.pdf" = path_join "/w" name /\ sniffed (ci_fs c) "/w/a.pdf" = true
       /\ print_cmd "/w/a.pdf" "P" ex_opts = print_cmd "/w/a.pdf" "P" ex_opts
       /\ false = ci_lp c (print_cmd "/w/a.pdf" "P" ex_opts).
Proof.
  assert (Hin : In (ESubmit "/w/a.pdf" (print_cmd "/w/a.pdf" "P" ex_opts) false)
     (watch_folder "/w" "P" ex_opts [ex_cycle (ex_fs_one 3) false ["a.pdf"]]).2)
    by (vm_compute; left; reflexivity).
  split; [exact Hin|].
  exact (watch_submit_sound "/w" "P" ex_opts _ "/w/a.pdf" _ false Hin).
Defined.

Fixpoint warned (evs : list event) : bool :=
  match evs with
  | [] => false
  | EWarn :: _ => true
  | _ :: evs' => warned evs'
  end.

Lemma warned_app (e1 e2 : list event) : warned (e1 ++ e2) = warned e1 || warned e2.
Proof. induction e1 as [|[] e1 IH]; simpl; rewrite ?IH; reflexivity. Qed.

Lemma scan_raised (folder printer : string) (opts : options) (fs : fsys)
    (lp : list string -> bool) (names : list string) (h : hist) :
  warned (scan folder printer opts fs lp names h).1.2 = false
  /\ (scan folder printer opts fs lp names h).2 = existsb (raises_at folder fs) names.
Proof.
  revert h. induction names as [|x names IH]; intros h; simpl; [auto|].
  destruct (visit folder printer opts fs lp h x) as [|evs h1] eqn:E.
  - apply visit_raise in E. rewrite E. auto.
  - assert (Hr : raises_at folder fs x = false).
    { destruct (raises_at folder fs x) eqn:Hr; [|reflexivity].
      apply (visit_raise folder printer opts fs lp h x) in Hr. congruence. }
    rewrite Hr. specialize (IH h1).
    destruct (scan _ _ _ _ _ names h1) as [[h2 evs2] r]. simpl in *.
    rewrite warned_app. destruct IH as [-> ->].
    apply visit_cases in E as [[-> _] | (m & _ & _ & _ & -> & _)]; auto.
Qed.

(** X18: a cycle prints the warning exactly when [os.listdir] fails or a
    listed name makes it raise (a regular file passing [is_pdf] whose
    [getmtime] fails), whatever the history. *)
Theorem cycle_warns_iff (folder printer : string) (opts : options) (c : cycle_input)
    (h : hist) :
  warned (cycle folder printer opts c h).2 = true
  <-> ci_listing c = None
      \/ exists names y, ci_listing c = Some names /\ In y names
           /\ raises_at folder (ci_fs c) y = true.
Proof.
  unfold cycle. destruct (ci_listing c) as [names|].
  - pose proof (scan_raised folder printer opts (ci_fs c) (ci_lp c) names h) as [Hw Hr].
    destruct (scan _ _ _ _ _ names h) as [[h' evs] r]. simpl in *. subst r.
    split.
    + intros Hwe. right. exists names.
      destruct (existsb (raises_at folder (ci_fs c)) names) eqn:Ex.
      * apply existsb_exists in Ex as [y [Hy Hry]]. exists y. auto.
      * simpl in Hwe. rewrite warned_app, Hw in Hwe. discriminate.
    + intros [E|(names' & y & E & Hy & Hry)]; [discriminate|]. injection E as <-.
      replace (existsb (raises_at folder (ci_fs c)) names) with true
        by (symmetry; apply existsb_exists; eauto).
      simpl. rewrite warned_app. simpl. apply orb_true_r.
  - split; [auto | reflexivity].
Qed.

(* ------------------------------------------------------------------ *)
(** * Whitespace, words and lines                                      *)
(* ------------------------------------------------------------------ *)

Definition no_space (s : ustring) : Prop := Forall (fun c => py_isspace c = false) s.
Definition all_space (s : ustring) : Prop := Forall (fun c => py_isspace c = true) s.
Definition no_break (s : ustring) : Prop := Forall (fun c => py_islinebreak c = false) s.

Lemma linebreak_space (c : N) : py_islinebreak c = true -> py_isspace c = true.
Proof.
  unfold py_islinebreak. intros H.
  repeat match goal with H : _ || _ = true |- _ => apply orb_true_iff in H as [H|H] end;
  try (apply N.eqb_eq in H; subst c; reflexivity);
  apply andb_prop in H as [H1 H2]; apply N.leb_le in H1, H2.
  - assert (c = 10 \/ c = 11 \/ c = 12 \/ c = 13)%N as Hc by lia.
    repeat destruct Hc as [->|Hc]; try reflexivity; subst; reflexivity.
  - assert (c = 28 \/ c = 29 \/ c = 30)%N as Hc by lia.
    repeat destruct Hc as [->|Hc]; try reflexivity; subst; reflexivity.
Qed.

Lemma no_space_no_break (s : ustring) : no_space s -> no_break s.
Proof.
  unfold no_space, no_break. intros H. eapply Forall_impl; [exact H|].
  intros c Hc. destruct (py_islinebreak c) eqn:E; [|reflexivity].
  apply linebreak_space in E. cbv beta in Hc. congruence.
Qed.

Lemma ascii_digit_no_space (c : N) : ascii_digit c = true -> py_isspace c = false.
Proof.
  unfold ascii_digit. intros H. apply andb_prop in H as [H1 H2]. apply N.leb_le in H1, H2.
  assert (c = 48 \/ c = 49 \/ c = 50 \/ c = 51 \/ c = 52 \/ c = 53 \/ c = 54 \/ c = 55
          \/ c = 56 \/ c = 57)%N as Hc by lia.
  repeat destruct Hc as [->|Hc]; try reflexivity; subst; reflexivity.
Qed.

Lemma ulstrip_spaces (sp s : ustring) : all_space sp -> ulstrip (sp ++ s) = ulstrip s.
Proof. induction 1 as [|c sp Hc _ IH]; simpl; [reflexivity | rewrite Hc; exact IH]. Qed.

Lemma ulstrip_app_head (a b : ustring) (c : N) :
  py_isspace c = false -> ulstrip (a ++ c :: b) = ulstrip a ++ c :: b.
Proof.
  intros Hc. induction a as [|x a IH]; simpl; [rewrite Hc; reflexivity|].
  destruct (py_isspace x); [exact IH | reflexivity].
Qed.

Lemma ulstrip_suffix (s : ustring) : exists p, s = p ++ ulstrip s.
Proof.
  induction s as [|c s [p Hp]]; simpl; [exists []; reflexivity|].
  destruct (py_isspace c); [exists (c :: p); simpl; f_equal; exact Hp | exists []; reflexivity].
Qed.

Lemma ulstrip_head (s : ustring) :
  ulstrip s = [] \/ exists c t, ulstrip s = c :: t /\ py_isspace c = false.
Proof.
  induction s as [|c s IH]; simpl; [auto|].
  destruct (py_isspace c) eqn:Hc; [exact IH | right; eauto].
Qed.

Lemma ulstrip_fix (c : N) (t : ustring) : py_isspace c = false -> ulstrip (c :: t) = c :: t.
Proof. intros Hc. simpl. rewrite Hc. reflexivity. Qed.

Lemma ulstrip_idem (s : ustring) : ulstrip (ulstrip s) = ulstrip s.
Proof.
  destruct (ulstrip_head s) as [->|(c & t & -> & Hc)]; [reflexivity | apply ulstrip_fix, Hc].
Qed.

(** A word padded with whitespace on its right is stripped to itself on
    that side. *)
Lemma rstrip_word_end (x w sp : ustring) :
  w <> [] -> no_space w -> all_space sp -> rev (ulstrip (rev (x ++ w ++ sp))) = x ++ w.
Proof.
  intros Hw Hnw Hsp. rewrite !rev_app_distr, <- app_assoc.
  rewrite ulstrip_spaces by (apply Forall_rev; exact Hsp).
  destruct (rev w) as [|c rw] eqn:Ew; [apply (f_equal (@rev N)) in Ew; rewrite rev_involutive in Ew; simpl in Ew; contradiction|].
  assert (Hc : py_isspace c = false).
  { unfold no_space in Hnw. rewrite List.Forall_forall in Hnw. apply Hnw.
    apply in_rev. rewrite Ew. left. reflexivity. }
  change ((c :: rw) ++ rev x) with (c :: (rw ++ rev x)). rewrite ulstrip_fix by exact Hc.
  change (c :: (rw ++ rev x)) with ((c :: rw) ++ rev x).
  rewrite <- Ew, rev_app_distr, !rev_involutive. reflexivity.
Qed.

(** [strip] of a word padded with whitespace is the word. *)
Lemma ustrip_word (sp1 w sp2 : ustring) :
  all_space sp1 -> w <> [] -> no_space w -> all_space sp2 -> ustrip (sp1 ++ w ++ sp2) = w.
Proof.
  intros H1 Hw Hnw H2. unfold ustrip. rewrite ulstrip_spaces by exact H1.
  destruct w as [|c w']; [contradiction|].
  assert (Hc : py_isspace c = false) by (inversion Hnw; assumption).
  simpl. rewrite Hc. apply (rstrip_word_end [] (c :: w') sp2); auto; discriminate.
Qed.

Lemma ustrip_no_space (w : ustring) : no_space w -> ustrip w = w.
Proof.
  destruct w as [|c w']; [reflexivity|]. intros Hnw.
  rewrite <- (app_nil_l (c :: w')), <- (app_nil_r (c :: w')) at 1.
  apply ustrip_word; [constructor | discriminate | exact Hnw | constructor].
Qed.

(** [str.strip] is idempotent. *)
Lemma ustrip_idem (s : ustring) : ustrip (ustrip s) = ustrip s.
Proof.
  unfold ustrip. remember (ulstrip (rev (ulstrip s))) as t eqn:Ht.
  assert (Hl : ulstrip (rev t) = rev t).
  { destruct (ulstrip_suffix (rev (ulstrip s))) as [p Hp]. rewrite <- Ht in Hp.
    destruct t as [|e t0]; [reflexivity|].
    destruct (exists_last (l := e :: t0) ltac:(discriminate)) as [t' [e' Ht']].
    rewrite Ht' in Hp |- *. rewrite rev_app_distr.
    change (rev [e'] ++ rev t') with (e' :: rev t').
    destruct (ulstrip_head s) as [Hs|(d & r & Hs & Hd)].
    - rewrite Hs in Hp. apply (f_equal (@length N)) in Hp.
      rewrite !length_app in Hp. simpl in Hp. lia.
    - rewrite Hs in Hp. simpl in Hp. rewrite app_assoc in Hp.
      apply app_inj_tail in Hp as [_ <-]. apply ulstrip_fix, Hd. }
  rewrite Hl, rev_involutive, Ht, ulstrip_idem. reflexivity.
Qed.

Lemma has_colon_rev (s : ustring) : has_colon (rev s) = has_colon s.
Proof.
  unfold has_colon. apply eq_bool_prop_intro. split; intros H; apply Is_true_eq_true in H;
    apply Is_true_eq_left; apply existsb_exists in H as [x [Hx Hc]]; apply existsb_exists;
    exists x; split; try exact Hc; [apply in_rev | apply in_rev; rewrite rev_involutive]; exact Hx.
Qed.

Lemma has_colon_app (a b : ustring) : has_colon (a ++ b) = has_colon a || has_colon b.
Proof. unfold has_colon. apply existsb_app. Qed.

Lemma has_colon_ulstrip (s : ustring) : has_colon s = false -> has_colon (ulstrip s) = false.
Proof.
  destruct (ulstrip_suffix s) as [p Hp]. rewrite Hp at 1. rewrite has_colon_app.
  intros H. apply orb_false_iff in H. apply H.
Qed.

Lemma has_colon_ustrip (s : ustring) : has_colon s = false -> has_colon (ustrip s) = false.
Proof.
  intros H. unfold ustrip. rewrite has_colon_rev. apply has_colon_ulstrip.
  rewrite has_colon_rev. apply has_colon_ulstrip, H.
Qed.

Lemma after_colon_app (a b : ustring) : has_colon a = false -> after_colon (a ++ 58%N :: b) = b.
Proof.
  induction a as [|c a IH]; [reflexivity|]. simpl. unfold has_colon. simpl.
  intros H. apply orb_false_iff in H as [Hc Ha]. rewrite Hc. apply IH, Ha.
Qed.

Lemma usplit_go_word (w cur s : ustring) :
  no_space w -> usplit_go cur (w ++ s) = usplit_go (cur ++ w) s.
Proof.
  revert cur. induction w as [|c w IH]; intros cur Hw; simpl; [rewrite app_nil_r; reflexivity|].
  inversion Hw as [|? ? Hc Hw']; subst. rewrite Hc, IH by exact Hw'.
  rewrite <- app_assoc. reflexivity.
Qed.

(** Every word of [str.split()] is non-empty and has no whitespace. *)
Lemma usplit_go_words (s cur : ustring) :
  no_space cur -> Forall (fun w => w <> [] /\ no_space w) (usplit_go cur s).
Proof.
  revert cur. induction s as [|c s IH]; intros cur Hcur; simpl.
  - destruct cur; constructor; [split; [discriminate | exact Hcur] | constructor].
  - destruct (py_isspace c) eqn:Hc.
    + apply Forall_app; split; [|apply IH; constructor].
      destruct cur; constructor; [split; [discriminate | exact Hcur] | constructor].
    + apply IH. apply Forall_app; split; [exact Hcur | constructor; [exact Hc | constructor]].
Qed.

Lemma usplitlines_go_word (w cur s : ustring) :
  no_break w -> usplitlines_go cur (w ++ s) = usplitlines_go (cur ++ w) s.
Proof.
  revert cur. induction w as [|c w IH]; intros cur Hw; simpl; [rewrite app_nil_r; reflexivity|].
  inversion Hw as [|? ? Hc Hw']; subst.
  assert (H13 : (c =? 13)%N = false).
  { destruct (N.eqb_spec c 13); [subst; discriminate | reflexivity]. }
  rewrite H13, Hc, IH by exact Hw'. rewrite <- app_assoc. reflexivity.
Qed.

Lemma usplitlines_line (line rest : ustring) :
  no_break line -> usplitlines_go [] (line ++ 10%N :: rest) = line :: usplitlines_go [] rest.
Proof. intros H. rewrite usplitlines_go_word by exact H. reflexivity. Qed.

Lemma usplit_printer_line (n tail : ustring) :
  n <> [] -> no_space n ->
  usplit (u "printer " ++ n ++ u " " ++ tail) = u "printer" :: n :: usplit tail.
Proof.
  intros Hn Hns. unfold usplit.
  change (u "printer " ++ n ++ u " " ++ tail)
    with (u "printer" ++ 32%N :: n ++ 32%N :: tail).
  rewrite usplit_go_word by (repeat constructor). simpl.
  rewrite usplit_go_word by exact Hns. simpl. destruct n; [contradiction|]. reflexivity.
Qed.

(** Well-formed [lpstat -p] entries: a one-word name, a tail on one line. *)
Definition lpstat_entry_ok (e : ustring * ustring) : Prop :=
  e.1 <> [] /\ no_space e.1 /\ no_break e.2.

Lemma parse_lpstat_p (entries : list (ustring * ustring)) :
  Forall lpstat_entry_ok entries -> parse_printers (lpstat_p_output entries) = map fst entries.
Proof.
  unfold parse_printers, usplitlines.
  set (f := fun line : ustring =>
              let parts := usplit line in
              if (2 <=? length parts)%nat && ueqb (nth 0 parts []) (u "printer")
              then [nth 1 parts []] else []).
  induction 1 as [|[n tail] entries [Hn [Hns Ht]] _ IH]; [reflexivity|].
  cbn [lpstat_p_output map fst snd] in *.
  replace (u "printer " ++ n ++ u " " ++ tail ++ [10%N] ++ lpstat_p_output entries)
    with ((u "printer " ++ n ++ u " " ++ tail) ++ 10%N :: lpstat_p_output entries)
    by (rewrite <- !app_assoc; reflexivity).
  rewrite usplitlines_line.
  - cbn [flat_map]. rewrite IH.
    assert (Hf : f (u "printer " ++ n ++ u " " ++ tail) = [n]).
    { unfold f. rewrite usplit_printer_line by assumption. reflexivity. }
    rewrite Hf. reflexivity.
  - unfold no_break. rewrite !Forall_app.
    split; [repeat constructor|]. split; [apply no_space_no_break, Hns|].
    split; [repeat constructor | exact Ht].
Qed.

(* ------------------------------------------------------------------ *)
(** * Decimal numerals: [int(str(n)) = n]                              *)
(* ------------------------------------------------------------------ *)

Lemma sapp_nil_l (s : string) : "" +:+ s = s.
Proof. reflexivity. Qed.

Lemma sapp_cons (c : ascii) (a b : string) : String c a +:+ b = String c (a +:+ b).
Proof. reflexivity. Qed.

Lemma sapp_assoc (a b c : string) : a +:+ b +:+ c = (a +:+ b) +:+ c.
Proof. induction a as [|x a IH]; [reflexivity|]. rewrite !sapp_cons, IH. reflexivity. Qed.

Lemma u_app (a b : string) : u (a +:+ b) = u a ++ u b.
Proof.
  induction a as [|c a IH]; [reflexivity|]. rewrite sapp_cons.
  change (u (String c (a +:+ b))) with (N.of_nat (nat_of_ascii c) :: u (a +:+ b)).
  rewrite IH. reflexivity.
Qed.

Lemma u_length (s : string) : length (u s) = String.length s.
Proof. induction s as [|c s IH]; simpl; [reflexivity | f_equal; exact IH]. Qed.

Lemma slength_app (a b : string) : String.length (a +:+ b) = (String.length a + String.length b)%nat.
Proof. induction a as [|c a IH]; [reflexivity|]. rewrite sapp_cons. simpl. rewrite IH. reflexivity. Qed.

Lemma pretty_N_go_app (x : N) (s : string) : pretty_N_go x s = pretty_N_go x "" +:+ s.
Proof.
  revert s. induction (N.lt_wf_0 x) as [x _ IH]; intros s.
  destruct (decide (x = 0%N)) as [->|Hx]; [rewrite !pretty_N_go_0; reflexivity|].
  rewrite !(pretty_N_go_step x) by lia.
  assert (Hlt : (x `div` 10 < x)%N) by (apply N.div_lt; lia).
  rewrite (IH _ Hlt (String _ s)), (IH _ Hlt (String _ "")).
  rewrite <- sapp_assoc. reflexivity.
Qed.

Lemma pretty_N_char_code (d : N) :
  (d < 10)%N -> N.of_nat (nat_of_ascii (pretty_N_char d)) = (48 + d)%N.
Proof.
  intros Hd.
  assert (d = 0 \/ d = 1 \/ d = 2 \/ d = 3 \/ d = 4 \/ d = 5 \/ d = 6 \/ d = 7
          \/ d = 8 \/ d = 9)%N as Hc by lia.
  repeat destruct Hc as [->|Hc]; try reflexivity; subst; reflexivity.
Qed.

Section Numerals.

Variable U : unicode_db.
Hypothesis HU : db_ok U.

Lemma int_digits_app (acc : Z) (a b : ustring) :
  int_digits U acc (a ++ b)
  = match int_digits U acc a with Some v => int_digits U v b | None => None end.
Proof.
  revert acc. induction a as [|c a IH]; intros acc; simpl; [reflexivity|].
  destruct (ud_decimal U c); [apply IH | reflexivity].
Qed.

Lemma pretty_N_go_numeral (x : N) :
  Forall (fun c => ascii_digit c = true) (u (pretty_N_go x ""))
  /\ int_digits U 0 (u (pretty_N_go x "")) = Some (Z.of_N x).
Proof.
  induction (N.lt_wf_0 x) as [x _ IH].
  destruct (decide (x = 0%N)) as [->|Hx]; [split; [constructor | reflexivity]|].
  rewrite pretty_N_go_step by lia. rewrite pretty_N_go_app, u_app.
  assert (Hlt : (x `div` 10 < x)%N) by (apply N.div_lt; lia).
  destruct (IH _ Hlt) as [Hd Hi].
  assert (Hm : (x `mod` 10 < 10)%N) by (apply N.mod_lt; lia).
  change (u (String (pretty_N_char (x `mod` 10)) ""))
    with [N.of_nat (nat_of_ascii (pretty_N_char (x `mod` 10)))].
  rewrite (pretty_N_char_code _ Hm).
  assert (Hdig : ascii_digit (48 + x `mod` 10)%N = true).
  { unfold ascii_digit. apply andb_true_intro.
    set (r := (x `mod` 10)%N) in *. clearbody r. split; apply N.leb_le; lia. }
  split.
  - apply Forall_app. split; [exact Hd | constructor; [exact Hdig | constructor]].
  - rewrite int_digits_app, Hi. simpl.
    rewrite (ok_decimal U HU) by (set (r := (x `mod` 10)%N) in *; clearbody r; lia).
    rewrite Hdig. f_equal.
    pose proof (N.div_mod x 10 ltac:(discriminate)) as Hdm.
    set (r := (x `mod` 10)%N) in *. set (q := (x `div` 10)%N) in *. clearbody r q. lia.
Qed.

Lemma pretty_N_go_length (x : N) (k : nat) :
  (Z.of_N x < 10 ^ Z.of_nat k)%Z -> (String.length (pretty_N_go x "") <= k)%nat.
Proof.
  revert k. induction (N.lt_wf_0 x) as [x _ IH]; intros k Hk.
  destruct (decide (x = 0%N)) as [->|Hx]; [rewrite pretty_N_go_0; simpl; lia|].
  destruct k as [|k]; [simpl in Hk; lia|].
  rewrite pretty_N_go_step by lia. rewrite pretty_N_go_app.
  rewrite slength_app. simpl String.length.
  assert (Hlt : (x `div` 10 < x)%N) by (apply N.div_lt; lia).
  enough ((String.length (pretty_N_go (x `div` 10) "") <= k)%nat) by lia.
  apply IH; [exact Hlt|]. rewrite N2Z.inj_div. apply Z.div_lt_upper_bound; [lia|].
  rewrite Nat2Z.inj_succ, Z.pow_succ_r in Hk by lia. exact Hk.
Qed.

(** [str(n)] for [1 <= n < 10^640] is a digit string that [strip] leaves
    alone and whose [int] is [n]. *)
Lemma pretty_pos_numeral (n : Z) :
  (1 <= n)%Z -> (n < 10 ^ 640)%Z ->
  u (pretty n) <> [] /\ no_space (u (pretty n)) /\ ustrip (u (pretty n)) = u (pretty n)
  /\ py_isdigit U (u (pretty n)) = true /\ py_int U (u (pretty n)) = Some n.
Proof.
  intros Hn Hbig. destruct n as [|p|p]; [lia | | lia].
  change (pretty (Zpos p)) with (pretty (Npos p)).
  unfold pretty, pretty_N. rewrite decide_False by discriminate.
  destruct (pretty_N_go_numeral (Npos p)) as [Hd Hi].
  assert (Hne : u (pretty_N_go (Npos p) "") <> []).
  { rewrite pretty_N_go_step by lia. rewrite pretty_N_go_app, u_app.
    intros E. apply (f_equal (@length N)) in E. rewrite length_app in E. simpl in E. lia. }
  assert (Hns : no_space (u (pretty_N_go (Npos p) ""))).
  { unfold no_space. eapply Forall_impl; [exact Hd|]. intros c. apply ascii_digit_no_space. }
  split; [exact Hne | split; [exact Hns | split; [apply ustrip_no_space, Hns|]]].
  split.
  - unfold py_isdigit. destruct (u (pretty_N_go (N.pos p) "")) as [|c s] eqn:E; [contradiction|].
    rewrite <- E. apply forallb_forall. intros c' Hc'.
    rewrite List.Forall_forall in Hd. rewrite E in Hc'. specialize (Hd c' Hc').
    assert (Hlt : (c' < 128)%N).
    { unfold ascii_digit in Hd. apply andb_prop in Hd as [_ H2]. apply N.leb_le in H2. lia. }
    rewrite (ok_isdigit U HU c' Hlt). exact Hd.
  - unfold py_int. rewrite (ok_int_limit U HU).
    + exact Hi.
    + rewrite u_length. apply pretty_N_go_length. exact Hbig.
Qed.

End Numerals.

Lemma ten_pow_640_gt_3 : (3 < 10 ^ 640)%Z.
Proof. vm_compute. reflexivity. Qed.

(* ------------------------------------------------------------------ *)
(** * Printer discovery                                                *)
(* ------------------------------------------------------------------ *)

(** X1: [list_printers] returns exactly the names listed by an
    [lpstat -p] output made of ["printer NAME TAIL"] lines, where NAME
    is one word (non-empty, without Python whitespace) and TAIL has no
    line boundary of [str.splitlines]. *)
Theorem list_printers_lpstat_roundtrip (entries : list (ustring * ustring))
    (out_d : option ustring) :
  Forall lpstat_entry_ok entries ->
  (list_printers (Some (lpstat_p_output entries)) out_d).1 = map fst entries.
Proof. intros H. simpl. apply parse_lpstat_p, H. Qed.

Lemma list_printers_lpstat_roundtrip_witness :
  Forall lpstat_entry_ok [(u "Office_HP", u "is idle.  enabled since Jan 1");
                          (u "Canon", u "disabled" ++ [160%N] ++ u "x")]
  /\ (list_printers (Some (lpstat_p_output [(u "Office_HP", u "is idle.  enabled since Jan 1");
                                            (u "Canon", u "disabled" ++ [160%N] ++ u "x")]))
                    None).1
     = map fst [(u "Office_HP", u "is idle.  enabled since Jan 1");
                (u "Canon", u "disabled" ++ [160%N] ++ u "x")].
Proof.
  assert (H : Forall lpstat_entry_ok [(u "Office_HP", u "is idle.  enabled since Jan 1");
                                      (u "Canon", u "disabled" ++ [160%N] ++ u "x")]).
  { unfold lpstat_entry_ok, no_space, no_break.
    repeat constructor; discriminate. }
  split; [exact H | exact (list_printers_lpstat_roundtrip _ None H)].
Defined.

(** X2: when [lpstat -p] fails there are no printers; otherwise every
    printer name returned is non-empty and contains no Python whitespace. *)
Theorem list_printers_names :
  (forall out_d, (list_printers None out_d).1 = [])
  /\ (forall out_p out_d p, In p (list_printers out_p out_d).1 -> p <> [] /\ no_space p).
Proof.
  split; [reflexivity|]. intros [o|] out_d p; simpl; [|intros []].
  unfold parse_printers. rewrite in_flat_map. intros [line [_ Hp]].
  pose proof (usplit_go_words line [] (List.Forall_nil _)) as Hw. fold (usplit line) in Hw.
  destruct ((2 <=? length (usplit line))%nat && ueqb (nth 0 (usplit line) []) (u "printer"))
    eqn:E; [|destruct Hp].
  destruct Hp as [<-|[]]. apply andb_prop in E as [E _]. apply Nat.leb_le in E.
  rewrite List.Forall_forall in Hw. apply Hw, nth_In. lia.
Qed.

(** X3: on an [lpstat -d] output of the form ["PREFIX: NAME\n"], where
    PREFIX has no colon and NAME is one word, [list_printers] returns
    NAME as the default printer. *)
Theorem list_printers_default_lpstat (out_p : option ustring) (prefix name : ustring) :
  has_colon prefix = false -> name <> [] -> no_space name ->
  (list_printers out_p (Some (prefix ++ u ": " ++ name ++ [10%N]))).2 = Some name.
Proof.
  intros Hp Hn Hns. unfold list_printers, parse_default. cbn [snd].
  assert (Hd : ustrip (prefix ++ u ": " ++ name ++ [10%N]) = ulstrip prefix ++ u ": " ++ name).
  { unfold ustrip. change (u ": " ++ name ++ [10%N]) with (58%N :: 32%N :: name ++ [10%N]).
    rewrite ulstrip_app_head by reflexivity.
    replace (ulstrip prefix ++ 58%N :: 32%N :: name ++ [10%N])
      with ((ulstrip prefix ++ [58%N; 32%N]) ++ name ++ [10%N])
      by (rewrite <- app_assoc; reflexivity).
    rewrite rstrip_word_end by (try assumption; repeat constructor).
    rewrite <- app_assoc. reflexivity. }
  rewrite Hd. rewrite has_colon_app, (has_colon_ulstrip prefix Hp). simpl.
  change (u ": " ++ name) with (58%N :: 32%N :: name).
  rewrite after_colon_app by (apply has_colon_ulstrip, Hp). f_equal.
  replace (N.of_nat (nat_of_ascii " ") :: name) with ([32%N] ++ name ++ [])
    by (rewrite app_nil_r; reflexivity).
  apply ustrip_word; [repeat constructor | exact Hn | exact Hns | constructor].
Qed.

Lemma list_printers_default_lpstat_witness :
  (list_printers None (Some (u "system default destination: Office_HP" ++ [10%N]))).2
  = Some (u "Office_HP").
Proof.
  apply (list_printers_default_lpstat None (u "system default destination") (u "Office_HP"));
    [reflexivity | discriminate | repeat constructor].
Defined.

(** X4: there is no default printer when [lpstat -d] fails or when its
    output has no colon. *)
Theorem list_printers_no_default (out_p : option ustring) :
  (list_printers out_p None).2 = None
  /\ (forall out, has_colon out = false -> (list_printers out_p (Some out)).2 = None).
Proof.
  split; [reflexivity|]. intros out H. simpl. unfold parse_default.
  rewrite (has_colon_ustrip out H). reflexivity.
Qed.

(* ------------------------------------------------------------------ *)
(** * Printer choice                                                   *)
(* ------------------------------------------------------------------ *)

Section Choice_facts.

Variable U : unicode_db.

Lemma choose_loop_outcome (ps inp : list ustring) :
  match choose_loop U ps inp with
  | ChooseExit _ => False
  | Chosen p rest => In p ps /\ exists pre, inp = pre ++ rest
  | ChooseRaise ValueError => exists pre l post, inp = pre ++ l :: post /\ int_refused U l
  | ChooseRaise EOFError => True
  end.
Proof.
  induction inp as [|l inp IH]; [exact I|]. rewrite choose_loop_line.
  assert (Hnext : match choose_loop U ps inp with
                  | ChooseExit _ => False
                  | Chosen p rest => In p ps /\ exists pre, l :: inp = pre ++ rest
                  | ChooseRaise ValueError =>
                      exists pre l' post, l :: inp = pre ++ l' :: post /\ int_refused U l'
                  | ChooseRaise EOFError => True
                  end).
  { destruct (choose_loop U ps inp) as [|p rest|[]]; auto.
    - destruct IH as [Hp [pre ->]]. split; [exact Hp | exists (l :: pre); reflexivity].
    - destruct IH as (pre & l' & post & -> & H). exists (l :: pre), l', post. auto. }
  unfold int_refused. destruct (py_isdigit U (ustrip l)) eqn:Hd; [|exact Hnext].
  destruct (py_int U (ustrip l)) as [v|] eqn:Hi; [|exists [], l, inp; auto].
  destruct ((1 <=? v)%Z && (v <=? Z.of_nat (length ps))%Z) eqn:Hv; [|exact Hnext].
  apply andb_prop in Hv as [H1 H2]. apply Z.leb_le in H1, H2.
  split; [apply nth_In; lia | exists [l]; reflexivity].
Qed.

(** A line the printer prompt rejects without raising: [isdigit] fails,
    or [int] gives a number outside [1, n]. *)
Definition bad_choice (n : nat) (l : ustring) : Prop :=
  py_isdigit U (ustrip l) = false
  \/ exists v, py_int U (ustrip l) = Some v /\ (v < 1 \/ Z.of_nat n < v)%Z.

Lemma choose_loop_skip (ps bad inp : list ustring) :
  Forall (bad_choice (length ps)) bad -> choose_loop U ps (bad ++ inp) = choose_loop U ps inp.
Proof.
  induction 1 as [|l bad Hl _ IH]; [reflexivity|]. simpl app. rewrite choose_loop_line, <- IH.
  destruct Hl as [Hd|(v & Hi & Hv)]; [rewrite Hd; reflexivity|].
  destruct (py_isdigit U (ustrip l)); [|reflexivity]. rewrite Hi.
  replace ((1 <=? v)%Z && (v <=? Z.of_nat (length ps))%Z) with false; [reflexivity|].
  symmetry. apply andb_false_iff. destruct Hv; [left | right]; apply Z.leb_gt; lia.
Qed.

End Choice_facts.

(** X5: with no printers [choose_printer] exits with status 1 whatever
    the input; with printers it never calls [sys.exit]; the default
    printer does not affect the outcome; a chosen printer is one of the
    list and the input left over is a suffix of the input; a
    [ValueError] comes from a line passing [isdigit] that [int] refuses. *)
Theorem choose_printer_behaviour (U : unicode_db) :
  (forall d inp, choose_printer U [] d inp = ChooseExit 1)
  /\ (forall ps d inp code, ps <> [] -> choose_printer U ps d inp <> ChooseExit code)
  /\ (forall ps d d' inp, choose_printer U ps d inp = choose_printer U ps d' inp)
  /\ (forall ps d inp p rest, choose_printer U ps d inp = Chosen p rest ->
        In p ps /\ exists pre, inp = pre ++ rest)
  /\ (forall ps d inp, choose_printer U ps d inp = ChooseRaise ValueError ->
        exists pre l post, inp = pre ++ l :: post /\ int_refused U l).
Proof.
  split; [reflexivity|].
  split; [intros [|p0 ps] d inp code Hne; [contradiction|]; unfold choose_printer;
          pose proof (choose_loop_outcome U (p0 :: ps) inp) as H;
          intros E; rewrite E in H; exact H|].
  split; [intros [|p0 ps] d d' inp; reflexivity|].
  split; [intros [|p0 ps] d inp p rest; [discriminate|]; unfold choose_printer;
          pose proof (choose_loop_outcome U (p0 :: ps) inp) as H;
          intros E; rewrite E in H; exact H|].
  intros [|p0 ps] d inp; [discriminate|]. unfold choose_printer.
  pose proof (choose_loop_outcome U (p0 :: ps) inp) as H. intros E. rewrite E in H. exact H.
Qed.

Lemma choose_answer (U : unicode_db) (HU : db_ok U) (ps : list ustring) (d : option ustring)
    (bad : list ustring) (i : nat) (rest : list ustring) :
  (i < length ps)%nat -> (Z.of_nat (S i) < 10 ^ 640)%Z ->
  Forall (bad_choice U (length ps)) bad ->
  choose_printer U ps d (bad ++ u (pretty (Z.of_nat (S i))) :: rest) = Chosen (nth i ps []) rest.
Proof.
  intros Hi Hbig Hbad. destruct ps as [|p0 ps']; [simpl in Hi; lia|].
  unfold choose_printer. rewrite choose_loop_skip by exact Hbad.
  destruct (pretty_pos_numeral U HU (Z.of_nat (S i))) as (_ & _ & Hs & Hd & Hv); [lia | exact Hbig|].
  rewrite choose_loop_line, Hs, Hd, Hv.
  replace ((1 <=? Z.of_nat (S i))%Z && (Z.of_nat (S i) <=? Z.of_nat (length (p0 :: ps')))%Z)
    with true by (symmetry; apply andb_true_intro; split; apply Z.leb_le; lia).
  replace (Z.to_nat (Z.of_nat (S i) - 1)) with i by lia. reflexivity.
Qed.

(** X6: after any number of lines the prompt rejects without raising,
    the answer [str(i+1)] selects the i-th printer (0-based) and consumes
    exactly that line, for any database agreeing with Python's on ASCII. *)
Theorem choose_printer_pick (U : unicode_db) (ps : list ustring) (d : option ustring)
    (bad : list ustring) (i : nat) (rest : list ustring) :
  db_ok U -> (i < length ps)%nat -> (Z.of_nat (S i) < 10 ^ 640)%Z ->
  Forall (bad_choice U (length ps)) bad ->
  choose_printer U ps d (bad ++ u (pretty (Z.of_nat (S i))) :: rest) = Chosen (nth i ps []) rest.
Proof. intros HU. apply choose_answer, HU. Qed.

Lemma py_db_ok : db_ok py_db.
Proof.
  split.
  - intros c Hc. simpl.
    replace (c =? 178)%N with false by (symmetry; apply N.eqb_neq; lia).
    replace (c =? 179)%N with false by (symmetry; apply N.eqb_neq; lia).
    replace (c =? 185)%N with false by (symmetry; apply N.eqb_neq; lia).
    replace (65296 <=? c)%N with false by (symmetry; apply N.leb_gt; lia).
    rewrite !orb_false_r. reflexivity.
  - intros c Hc. simpl. destruct (ascii_digit c); [reflexivity|].
    replace (65296 <=? c)%N with false by (symmetry; apply N.leb_gt; lia). reflexivity.
  - intros s _. reflexivity.
  - intros s Hs. simpl. apply Nat.ltb_ge. lia.
Qed.

Lemma choose_printer_pick_witness :
  db_ok py_db /\ (1 < length [u "HP"; u "Canon"; u "Epson"])%nat
  /\ (Z.of_nat 2 < 10 ^ 640)%Z
  /\ Forall (bad_choice py_db 3) [u "0"; u "x"; u " 7 "; [65300%N]]
  /\ choose_printer py_db [u "HP"; u "Canon"; u "Epson"] None
       ([u "0"; u "x"; u " 7 "; [65300%N]] ++ u (pretty (Z.of_nat 2)) :: [u "rest"])
     = Chosen (u "Canon") [u "rest"].
Proof.
  assert (Hb : Forall (bad_choice py_db 3) [u "0"; u "x"; u " 7 "; [65300%N]]).
  { unfold bad_choice. repeat apply List.Forall_cons; [| | | | apply List.Forall_nil].
    - right. exists 0%Z. split; [reflexivity | lia].
    - left. reflexivity.
    - right. exists 7%Z. split; [reflexivity | simpl; lia].
    - right. exists 4%Z. split; [reflexivity | simpl; lia]. }
  assert (Hp : (Z.of_nat 2 < 10 ^ 640)%Z) by (vm_compute; reflexivity).
  split; [exact py_db_ok | split; [simpl; lia | split; [exact Hp | split; [exact Hb|]]]].
  exact (choose_printer_pick py_db [u "HP"; u "Canon"; u "Epson"] None _ 1 [u "rest"]
           py_db_ok ltac:(simpl; lia) Hp Hb).
Defined.

(* ------------------------------------------------------------------ *)
(** * Option prompts: answers read back                               *)
(* ------------------------------------------------------------------ *)

Section Answers.

Variable U : unicode_db.

(** Lines the copies prompt rejects without raising: not blank, and
    [isdigit] fails or [int] gives a number below 1. *)
Definition bad_copies (l : ustring) : Prop :=
  ustrip l <> []
  /\ (py_isdigit U (ustrip l) = false \/ exists v, py_int U (ustrip l) = Some v /\ (v <= 0)%Z).

(** Lines the duplex prompt rejects without raising: not blank, and
    [isdigit] fails or [int] gives a number outside [1, 3]. *)
Definition bad_duplex (l : ustring) : Prop :=
  ustrip l <> []
  /\ (py_isdigit U (ustrip l) = false
      \/ exists v, py_int U (ustrip l) = Some v /\ (v < 1 \/ 3 < v)%Z).

Lemma ask_copies_skip (bad inp : list ustring) :
  Forall bad_copies bad -> ask_copies U (bad ++ inp) = ask_copies U inp.
Proof.
  induction 1 as [|l bad [Hne Hl] _ IH]; [reflexivity|]. simpl app.
  rewrite ask_copies_line, <- IH. destruct (ustrip l) as [|c s] eqn:E; [contradiction|].
  destruct Hl as [Hd|(v & Hi & Hv)]; [rewrite Hd; reflexivity|].
  destruct (py_isdigit U (c :: s)); [|reflexivity]. rewrite Hi.
  replace (0 <? v)%Z with false by (symmetry; apply Z.ltb_ge; lia). reflexivity.
Qed.

Lemma ask_duplex_skip (bad inp : list ustring) :
  Forall bad_duplex bad -> ask_duplex U (bad ++ inp) = ask_duplex U inp.
Proof.
  induction 1 as [|l bad [Hne Hl] _ IH]; [reflexivity|]. simpl app.
  rewrite ask_duplex_line, <- IH. destruct (ustrip l) as [|c s] eqn:E; [contradiction|].
  destruct Hl as [Hd|(v & Hi & Hv)]; [rewrite Hd; reflexivity|].
  destruct (py_isdigit U (c :: s)); [|reflexivity]. rewrite Hi.
  replace ((1 <=? v)%Z && (v <=? 3)%Z) with false; [reflexivity|].
  symmetry. apply andb_false_iff. destruct Hv; [left | right]; apply Z.leb_gt; lia.
Qed.

Hypothesis HU : db_ok U.

Lemma ask_copies_pretty (n : Z) (rest : list ustring) :
  (1 <= n)%Z -> (n < 10 ^ 640)%Z -> ask_copies U (u (pretty n) :: rest) = IOk n rest.
Proof.
  intros Hn Hbig. destruct (pretty_pos_numeral U HU n Hn Hbig) as (Hne & _ & Hs & Hd & Hv).
  rewrite ask_copies_line, Hs. destruct (u (pretty n)) as [|c s] eqn:E; [contradiction|].
  rewrite Hd, Hv. replace (0 <? n)%Z with true by (symmetry; apply Z.ltb_lt; lia).
  reflexivity.
Qed.

(** The answer to the duplex prompt selecting [di]: blank for the
    printer's default, [str(i+1)] for the i-th mode. *)
Definition duplex_answer (di : option nat) : ustring :=
  match di with None => [] | Some i => u (pretty (Z.of_nat (S i))) end.

Lemma ask_duplex_answer (di : option nat) (rest : list ustring) :
  (forall i, di = Some i -> (i < 3)%nat) ->
  ask_duplex U (duplex_answer di :: rest)
  = IOk (option_map (fun i => nth i duplex_modes []) di) rest.
Proof.
  intros Hdi. destruct di as [i|]; [|reflexivity]. specialize (Hdi i eq_refl).
  simpl duplex_answer.
  destruct (pretty_pos_numeral U HU (Z.of_nat (S i))) as (Hne & _ & Hs & Hd & Hv);
    [lia | apply Z.le_lt_trans with (m := 3%Z); [lia | exact ten_pow_640_gt_3]|].
  rewrite ask_duplex_line, Hs. destruct (u (pretty (Z.of_nat (S i)))) as [|c s] eqn:E;
    [contradiction|].
  rewrite Hd, Hv.
  replace ((1 <=? Z.of_nat (S i))%Z && (Z.of_nat (S i) <=? 3)%Z)
    with true by (symmetry; apply andb_true_intro; split; apply Z.leb_le; lia).
  replace (Z.to_nat (Z.of_nat (S i) - 1)) with i by lia. reflexivity.
Qed.

Lemma fit_answer (ft : bool) :
  ueqb (ud_lower U (ustrip (u (if ft then "Y" else "n")))) (u "y") = ft.
Proof.
  destruct ft; rewrite (ok_lower U HU) by (repeat constructor); reflexivity.
Qed.

Lemma options_answers (pg md : ustring) (n : Z) (bc bd : list ustring)
    (di : option nat) (ft : bool) (rest : list ustring) :
  (1 <= n)%Z -> (n < 10 ^ 640)%Z -> Forall bad_copies bc -> Forall bad_duplex bd ->
  (forall i, di = Some i -> (i < 3)%nat) ->
  get_print_options U (pg :: bc ++ u (pretty n) :: bd ++ duplex_answer di
                          :: u (if ft then "Y" else "n") :: md :: rest)
  = IOk {| po_pages := ustrip pg; po_copies := n;
           po_duplex := option_map (fun i => nth i duplex_modes []) di;
           po_fit := ft;
           po_media := match ustrip md with [] => None | m => Some m end |} rest.
Proof.
  intros Hn Hbig Hbc Hbd Hdi. unfold get_print_options.
  rewrite ask_copies_skip, ask_copies_pretty by assumption.
  rewrite ask_duplex_skip, ask_duplex_answer by assumption.
  rewrite fit_answer. destruct (ustrip md); reflexivity.
Qed.

End Answers.

(** X7: answering the prompts of [get_print_options] with a page range,
    lines the copies prompt rejects then [str(n)] for 1 <= n < 10^640,
    lines the duplex prompt rejects then a duplex answer, "Y"/"n" and a
    paper size gives back the options those answers describe (pages and
    paper size stripped, a blank paper size meaning none) and consumes
    exactly those lines, for any database agreeing with Python's on
    ASCII. *)
Theorem get_print_options_roundtrip (U : unicode_db) (pg md : ustring) (n : Z)
    (bc bd : list ustring) (di : option nat) (ft : bool) (rest : list ustring) :
  db_ok U -> (1 <= n)%Z -> (n < 10 ^ 640)%Z ->
  Forall (bad_copies U) bc -> Forall (bad_duplex U) bd ->
  (forall i, di = Some i -> (i < 3)%nat) ->
  get_print_options U (pg :: bc ++ u (pretty n) :: bd ++ duplex_answer di
                          :: u (if ft then "Y" else "n") :: md :: rest)
  = IOk {| po_pages := ustrip pg; po_copies := n;
           po_duplex := option_map (fun i => nth i duplex_modes []) di;
           po_fit := ft;
           po_media := match ustrip md with [] => None | m => Some m end |} rest.
Proof. intros HU. apply options_answers, HU. Qed.

Lemma get_print_options_roundtrip_witness :
  get_print_options py_db
    (([160%N] ++ u "1-3") :: [u "zero"; u "0"; [65296%N]] ++ u (pretty 12%Z)
       :: [u "4"; [65300%N]] ++ duplex_answer (Some 1%nat)
       :: u (if true then "Y" else "n") :: (u " A4" ++ [160%N]) :: [u "more"])
  = IOk {| po_pages := ustrip ([160%N] ++ u "1-3"); po_copies := 12;
           po_duplex := option_map (fun i => nth i duplex_modes []) (Some 1%nat);
           po_fit := true;
           po_media := match ustrip (u " A4" ++ [160%N]) with [] => None | m => Some m end |}
        [u "more"].
Proof.
  assert (Hbc : Forall (bad_copies py_db) [u "zero"; u "0"; [65296%N]]).
  { unfold bad_copies. repeat apply List.Forall_cons; [| | | apply List.Forall_nil];
      (split; [vm_compute; discriminate|]).
    - left. reflexivity.
    - right. exists 0%Z. split; [reflexivity | lia].
    - right. exists 0%Z. split; [reflexivity | lia]. }
  assert (Hbd : Forall (bad_duplex py_db) [u "4"; [65300%N]]).
  { unfold bad_duplex. repeat apply List.Forall_cons; [| | apply List.Forall_nil];
      (split; [vm_compute; discriminate|]).
    - right. exists 4%Z. split; [reflexivity | lia].
    - right. exists 4%Z. split; [reflexivity | lia]. }
  assert (Hbig : (12 < 10 ^ 640)%Z) by (vm_compute; reflexivity).
  exact (get_print_options_roundtrip py_db ([160%N] ++ u "1-3") (u " A4" ++ [160%N]) 12 _ _
           (Some 1%nat) true [u "more"] py_db_ok ltac:(lia) Hbig Hbc Hbd
           ltac:(intros i E; injection E as <-; lia)).
Defined.

(** X19: the page range and paper size returned by [get_print_options]
    are already stripped: stripping them again changes nothing, and a
    paper size is never empty. *)
Theorem get_print_options_stripped (U : unicode_db) (inp rest : list ustring) (o : py_options) :
  get_print_options U inp = IOk o rest ->
  ustrip (po_pages o) = po_pages o
  /\ (forall m, po_media o = Some m -> ustrip m = m /\ m <> []).
Proof.
  intros H. destruct (get_print_options_ok U inp rest o H)
    as (_ & _ & l0 & pre & l3 & l4 & _ & Hp & _ & Hm).
  split; [rewrite Hp; apply ustrip_idem|].
  intros m E. rewrite Hm in E. destruct (ustrip l4) as [|c s] eqn:Es; [discriminate|].
  injection E as <-. rewrite <- Es. split; [apply ustrip_idem | rewrite Es; discriminate].
Qed.

Lemma get_print_options_stripped_witness :
  get_print_options py_db [u " 1-2 "; []; []; u "n"; [12288%N] ++ u "A4"; u "x"]
  = IOk {| po_pages := u "1-2"; po_copies := 1; po_duplex := None; po_fit := false;
           po_media := Some (u "A4") |} [u "x"]
  /\ ustrip (u "1-2") = u "1-2"
  /\ (forall m, Some (u "A4") = Some m -> ustrip m = m /\ m <> []).
Proof.
  assert (H : get_print_options py_db [u " 1-2 "; []; []; u "n"; [12288%N] ++ u "A4"; u "x"]
              = IOk {| po_pages := u "1-2"; po_copies := 1; po_duplex := None; po_fit := false;
                       po_media := Some (u "A4") |} [u "x"]) by (vm_compute; reflexivity).
  split; [exact H|]. exact (get_print_options_stripped py_db _ _ _ H).
Defined.

(* ------------------------------------------------------------------ *)
(** * The main block                                                   *)
(* ------------------------------------------------------------------ *)

(** X13: the main block calls [sys.exit] only with status 1, and does
    exactly when no printer was found (in particular whenever [lpstat -p]
    fails); a [ValueError] that ends it comes from an answer passing
    [isdigit] that [int] refuses; when it starts [watch_folder] the
    printer is one [lpstat -p] listed and the options are valid ones
    (copies >= 1, duplex one of the three modes, no empty paper size). *)
Theorem main_setup_behaviour :
  (forall U out_d inp, main_setup U None out_d inp = MainExit 1)
  /\ (forall U out_p out_d inp code, main_setup U out_p out_d inp = MainExit code ->
        code = 1%Z /\ (list_printers out_p out_d).1 = [])
  /\ (forall U out_p out_d inp, (list_printers out_p out_d).1 = [] ->
        main_setup U out_p out_d inp = MainExit 1)
  /\ (forall U out_p out_d inp, main_setup U out_p out_d inp = MainRaise ValueError ->
        exists pre l post, inp = pre ++ l :: post /\ int_refused U l)
  /\ (forall U out_p out_d inp p o, main_setup U out_p out_d inp = MainWatch p o ->
        In p (list_printers out_p out_d).1
        /\ (1 <= po_copies o)%Z
        /\ (forall d, po_duplex o = Some d -> In d duplex_modes)
        /\ po_media o <> Some []).
Proof.
  split; [reflexivity|].
  assert (Hsplit : forall U out_p out_d inp,
    main_setup U out_p out_d inp
    = match choose_printer U (list_printers out_p out_d).1 (list_printers out_p out_d).2 inp with
      | ChooseExit code => MainExit code
      | ChooseRaise e => MainRaise e
      | Chosen printer rest =>
          match get_print_options U rest with
          | IOk o _ => MainWatch printer o
          | IRaise e => MainRaise e
          end
      end) by (intros; unfold main_setup; destruct (list_printers out_p out_d); reflexivity).
  split.
  { intros U out_p out_d inp code. rewrite Hsplit.
    destruct (list_printers out_p out_d) as [[|p0 ps] d]; simpl.
    - intros E. injection E as <-. auto.
    - pose proof (choose_loop_outcome U (p0 :: ps) inp) as H.
      destruct (choose_loop U (p0 :: ps) inp) as [|p rest|e]; [destruct H | |].
      + destruct (get_print_options U rest) as [o r|e]; discriminate.
      + discriminate. }
  split.
  { intros U out_p out_d inp Hp. rewrite Hsplit, Hp. reflexivity. }
  split.
  { intros U out_p out_d inp. rewrite Hsplit.
    destruct (list_printers out_p out_d) as [ps d]. simpl.
    destruct ps as [|p0 ps]; [discriminate|]. unfold choose_printer.
    pose proof (choose_loop_outcome U (p0 :: ps) inp) as H.
    destruct (choose_loop U (p0 :: ps) inp) as [|p rest|e]; [destruct H | |].
    - destruct H as [_ [pre ->]]. destruct (get_print_options U rest) as [o r|e] eqn:Eg;
        [discriminate|].
      intros E. injection E as ->.
      destruct (get_print_options_value_error U rest Eg) as (pre' & l & post & -> & Hl).
      exists (pre ++ pre'), l, post. rewrite <- app_assoc. auto.
    - intros E. injection E as ->. exact H. }
  intros U out_p out_d inp p o. rewrite Hsplit.
  destruct (list_printers out_p out_d) as [ps d]. simpl.
  destruct ps as [|p0 ps]; [discriminate|]. unfold choose_printer.
  pose proof (choose_loop_outcome U (p0 :: ps) inp) as H.
  destruct (choose_loop U (p0 :: ps) inp) as [|p' rest|e]; [destruct H | | discriminate].
  destruct (get_print_options U rest) as [o' r|e] eqn:Eg; [|discriminate].
  intros E. injection E as <- <-. destruct H as [Hp _]. split; [exact Hp|].
  destruct (get_print_options_ok U rest r o' Eg) as (Hc & Hd & _).
  destruct (get_print_options_stripped U rest r o' Eg) as [_ Hm].
  split; [exact Hc | split; [exact Hd|]].
  intros E. destruct (Hm [] E) as [_ F]. apply F. reflexivity.
Qed.

(** X14: from an [lpstat -p] output listing printers, a choice [str(i+1)]
    after lines the printer prompt rejects, and answers to the option
    prompts, the main block starts [watch_folder] with the i-th listed
    printer and the options those answers describe, for any database
    agreeing with Python's on ASCII. *)
Theorem main_setup_lpstat (U : unicode_db) (entries : list (ustring * ustring))
    (out_d : option ustring) (bad : list ustring) (i : nat) (pg md : ustring) (n : Z)
    (bc bd : list ustring) (di : option nat) (ft : bool) (rest : list ustring) :
  db_ok U -> Forall lpstat_entry_ok entries ->
  (i < length entries)%nat -> (Z.of_nat (S i) < 10 ^ 640)%Z ->
  Forall (bad_choice U (length entries)) bad ->
  (1 <= n)%Z -> (n < 10 ^ 640)%Z -> Forall (bad_copies U) bc -> Forall (bad_duplex U) bd ->
  (forall j, di = Some j -> (j < 3)%nat) ->
  main_setup U (Some (lpstat_p_output entries)) out_d
    (bad ++ u (pretty (Z.of_nat (S i))) :: pg :: bc ++ u (pretty n) :: bd ++ duplex_answer di
         :: u (if ft then "Y" else "n") :: md :: rest)
  = MainWatch (nth i (map fst entries) [])
      {| po_pages := ustrip pg; po_copies := n;
         po_duplex := option_map (fun j => nth j duplex_modes []) di;
         po_fit := ft;
         po_media := match ustrip md with [] => None | m => Some m end |}.
Proof.
  intros HU He Hi Hbig Hbad Hn Hnbig Hbc Hbd Hdi. unfold main_setup.
  pose proof (parse_lpstat_p entries He) as Hp.
  remember (list_printers (Some (lpstat_p_output entries)) out_d) as lp eqn:Elp.
  destruct lp as [ps d]. simpl in Elp. injection Elp as Eps _. rewrite Hp in Eps. subst ps.
  rewrite choose_answer by (rewrite ?length_map; assumption).
  rewrite options_answers by assumption. reflexivity.
Qed.

Lemma main_setup_lpstat_witness :
  main_setup py_db
    (Some (lpstat_p_output [(u "Office_HP", u "is idle."); (u "Canon", u "disabled")])) None
    ([u "9"; u "printer"] ++ u (pretty (Z.of_nat 2))
       :: u "" :: [] ++ u (pretty 2%Z) :: [] ++ duplex_answer None
       :: u (if false then "Y" else "n") :: u "A4" :: [])
  = MainWatch (u "Canon")
      {| po_pages := []; po_copies := 2; po_duplex := None; po_fit := false;
         po_media := Some (u "A4") |}.
Proof.
  assert (He : Forall lpstat_entry_ok [(u "Office_HP", u "is idle."); (u "Canon", u "disabled")])
    by (unfold lpstat_entry_ok, no_space, no_break; vm_compute;
        repeat (apply List.Forall_cons || apply List.Forall_nil || split || discriminate)).
  assert (Hb : Forall (bad_choice py_db 2) [u "9"; u "printer"]).
  { unfold bad_choice. repeat apply List.Forall_cons; [| | apply List.Forall_nil].
    - right. exists 9%Z. split; [reflexivity | simpl; lia].
    - left. reflexivity. }
  assert (H2 : (Z.of_nat 2 < 10 ^ 640)%Z) by (vm_compute; reflexivity).
  assert (H2' : (2 < 10 ^ 640)%Z) by (vm_compute; reflexivity).
  exact (main_setup_lpstat py_db _ None _ 1 (u "") (u "A4") 2 [] [] None false []
           py_db_ok He ltac:(simpl; lia) H2 Hb ltac:(lia) H2' (List.Forall_nil _) (List.Forall_nil _)
           ltac:(intros j E; discriminate E)).
Defined.
